(** * Prompt composition of the book-scene studio (src/app.py)

    A shallow embedding of [_build_prompt] and of the submission path of
    [main], with the properties of the prompt composer stated over it.

    Python's [str] is a sequence of Unicode code points; it is modelled as
    a list of code points so that [str.strip], [!=], truthiness and
    [str.join] read as they do in CPython. *)

From Stdlib Require Import List Arith NArith Bool Ascii String Lia Permutation.
Import ListNotations.

(** ** Python strings *)

Module Py.

Definition str := list N.

(** Reader of the literals of this file: the UTF-8 bytes of a Rocq string
    literal, decoded to code points.  [need] continuation bytes are still
    expected and [acc] holds the bits read so far. *)
Fixpoint utf8_from (need : nat) (acc : N) (s : string) : str :=
  match s with
  | EmptyString => []
  | String a t =>
      let b := N_of_ascii a in
      match need with
      | O =>
          if (b <? 128)%N then b :: utf8_from 0 0 t
          else if (b <? 224)%N then utf8_from 1 (N.land b 31) t
          else if (b <? 240)%N then utf8_from 2 (N.land b 15) t
          else utf8_from 3 (N.land b 7) t
      | S O => (acc * 64 + N.land b 63)%N :: utf8_from 0 0 t
      | S n => utf8_from n (acc * 64 + N.land b 63)%N t
      end
  end.

Definition utf8 (s : string) : str := utf8_from 0 0 s.

(** [Py_UNICODE_ISSPACE]: the code points [str.strip()] removes. *)
Definition isspace (c : N) : bool :=
  ((9 <=? c) && (c <=? 13)          (* \t \n \v \f \r *)
   || (28 <=? c) && (c <=? 32)      (* FS GS RS US and the space *)
   || (c =? 133) || (c =? 160)      (* NEL, no-break space *)
   || (c =? 5760)                   (* U+1680 *)
   || (8192 <=? c) && (c <=? 8202)  (* U+2000 .. U+200A *)
   || (c =? 8232) || (c =? 8233)    (* U+2028, U+2029 *)
   || (c =? 8239) || (c =? 8287)    (* U+202F, U+205F *)
   || (c =? 12288))%N.              (* U+3000 *)

Fixpoint lstrip (s : str) : str :=
  match s with
  | [] => []
  | c :: t => if isspace c then lstrip t else s
  end.

Fixpoint rstrip (s : str) : str :=
  match s with
  | [] => []
  | c :: t =>
      match rstrip t with
      | [] => if isspace c then [] else [c]
      | r => c :: r
      end
  end.

(** [s.strip()] *)
Definition strip (s : str) : str := rstrip (lstrip s).

(** [a == b] on [str] *)
Fixpoint eqb (a b : str) : bool :=
  match a, b with
  | [], [] => true
  | x :: a', y :: b' => (x =? y)%N && eqb a' b'
  | _, _ => false
  end.

(** [a != b] *)
Definition neqb (a b : str) : bool := negb (eqb a b).

(** Truth value of a [str]: false exactly for the empty string. *)
Definition truthy (s : str) : bool :=
  match s with [] => false | _ :: _ => true end.

(** [sep.join(parts)] *)
Fixpoint join (sep : str) (parts : list str) : str :=
  match parts with
  | [] => []
  | x :: rest =>
      match rest with
      | [] => x
      | _ :: _ => x ++ sep ++ join sep rest
      end
  end.

End Py.

Import Py.

(** ** The literals of [_build_prompt] *)

Definition DEFAULT_MARK : str := Eval vm_compute in utf8 "기본".
Definition NOT_CHOSEN_MARK : str := Eval vm_compute in utf8 "(선택 안 함)".
Definition DELIMITER : str := Eval vm_compute in utf8 " | ".
Definition COLON_SPACE : str := Eval vm_compute in utf8 ": ".

(** ** [_build_prompt] *)

(** The nested helper of [_build_prompt].  It appends to the list [parts] of
    the enclosing call; here the list is passed in and the updated list is
    returned. *)
Definition _append_if_content (parts : list str) (label value : str) : list str :=
  if truthy value && neqb value DEFAULT_MARK && neqb value NOT_CHOSEN_MARK
  then parts ++ [label ++ COLON_SPACE ++ value]
  else parts.

(** The list [parts] as it stands at the [return] of [_build_prompt]. *)
Definition build_parts
  (passage art_style mood color_palette detail_level camera_focus era : str)
  : list str :=
  let parts : list str := [] in
  let passage := strip passage in
  let parts := if truthy passage then parts ++ [passage] else parts in
  let parts := _append_if_content parts (utf8 "Art style") art_style in
  let parts := _append_if_content parts (utf8 "Mood") mood in
  let parts := _append_if_content parts (utf8 "Colour palette") color_palette in
  let parts := _append_if_content parts (utf8 "Detail") detail_level in
  let parts := _append_if_content parts (utf8 "Camera") camera_focus in
  let parts := _append_if_content parts (utf8 "Era") era in
  parts.

Definition _build_prompt
  (passage art_style mood color_palette detail_level camera_focus era : str)
  : str :=
  join DELIMITER
    (build_parts passage art_style mood color_palette detail_level
       camera_focus era).

(** ** The six style options *)

(** The keyword-only parameters of [_build_prompt], in the order of its
    signature. *)
Inductive field : Type :=
  ArtStyle | Mood | ColourPalette | Detail | Camera | Era.

Definition field_eqb (f g : field) : bool :=
  match f, g with
  | ArtStyle, ArtStyle | Mood, Mood | ColourPalette, ColourPalette
  | Detail, Detail | Camera, Camera | Era, Era => true
  | _, _ => false
  end.

(** The label each call of [_append_if_content] passes for its field. *)
Definition label (f : field) : str :=
  match f with
  | ArtStyle => utf8 "Art style"
  | Mood => utf8 "Mood"
  | ColourPalette => utf8 "Colour palette"
  | Detail => utf8 "Detail"
  | Camera => utf8 "Camera"
  | Era => utf8 "Era"
  end.

(** The order of the six [_append_if_content] calls. *)
Definition FIELD_ORDER : list field :=
  [ArtStyle; Mood; ColourPalette; Detail; Camera; Era].

(** The keyword arguments of one call, as a record. *)
Record StyleOptions : Type := mkStyle {
  art_style : str;
  mood : str;
  color_palette : str;
  detail_level : str;
  camera_focus : str;
  era : str
}.

Definition get (f : field) (s : StyleOptions) : str :=
  match f with
  | ArtStyle => art_style s
  | Mood => mood s
  | ColourPalette => color_palette s
  | Detail => detail_level s
  | Camera => camera_focus s
  | Era => era s
  end.

Definition set (f : field) (v : str) (s : StyleOptions) : StyleOptions :=
  match f with
  | ArtStyle => mkStyle v (mood s) (color_palette s) (detail_level s) (camera_focus s) (era s)
  | Mood => mkStyle (art_style s) v (color_palette s) (detail_level s) (camera_focus s) (era s)
  | ColourPalette => mkStyle (art_style s) (mood s) v (detail_level s) (camera_focus s) (era s)
  | Detail => mkStyle (art_style s) (mood s) (color_palette s) v (camera_focus s) (era s)
  | Camera => mkStyle (art_style s) (mood s) (color_palette s) (detail_level s) v (era s)
  | Era => mkStyle (art_style s) (mood s) (color_palette s) (detail_level s) (camera_focus s) v
  end.

(** [_build_prompt(passage, art_style=..., ..., era=...)] *)
Definition compose (passage : str) (s : StyleOptions) : str :=
  _build_prompt passage (art_style s) (mood s) (color_palette s)
    (detail_level s) (camera_focus s) (era s).

Definition parts_of (passage : str) (s : StyleOptions) : list str :=
  build_parts passage (art_style s) (mood s) (color_palette s)
    (detail_level s) (camera_focus s) (era s).

(** The two sentinel spellings of the option lists. *)
Definition is_sentinel (v : str) : bool :=
  eqb v DEFAULT_MARK || eqb v NOT_CHOSEN_MARK.

(** The guard of [_append_if_content]. *)
Definition has_content (v : str) : bool :=
  truthy v && neqb v DEFAULT_MARK && neqb v NOT_CHOSEN_MARK.

(** The string [f"{label}: {value}"] of a field. *)
Definition segment (s : StyleOptions) (f : field) : str :=
  label f ++ COLON_SPACE ++ get f s.

(** What the passage adds to [parts]. *)
Definition passage_part (passage : str) : list str :=
  if truthy (strip passage) then [strip passage] else [].

(** The fields whose [_append_if_content] call appends, in call order. *)
Definition emitted (s : StyleOptions) : list field :=
  filter (fun f => has_content (get f s)) FIELD_ORDER.

(** What the six [_append_if_content] calls add to [parts]. *)
Definition field_segments (s : StyleOptions) : list str :=
  map (segment s) (emitted s).

(** [str.isspace()] for every character (true for the empty string here). *)
Definition blank (p : str) : bool := forallb isspace p.

(** ** Calling [_build_prompt] by keyword *)

(** The six options are keyword-only (the bare [*] of the signature): a
    call site names each one, in any order.  [kwargs] is a call site's
    keyword list in the order it is written. *)
Definition kwargs : Type := list (field * str).

Fixpoint lookup (f : field) (kw : kwargs) : option str :=
  match kw with
  | [] => None
  | (g, v) :: rest => if field_eqb f g then Some v else lookup f rest
  end.

Fixpoint distinct_keys (kw : kwargs) : bool :=
  match kw with
  | [] => true
  | (g, _) :: rest =>
      negb (existsb (field_eqb g) (map fst rest)) && distinct_keys rest
  end.

(** Binding of the keywords to the parameters.  [None] stands for the
    [TypeError] of a call that repeats a keyword or leaves one out. *)
Definition bind_kwargs (kw : kwargs) : option StyleOptions :=
  if distinct_keys kw then
    match lookup ArtStyle kw, lookup Mood kw, lookup ColourPalette kw,
          lookup Detail kw, lookup Camera kw, lookup Era kw with
    | Some a, Some m, Some c, Some d, Some k, Some e =>
        Some (mkStyle a m c d k e)
    | _, _, _, _, _, _ => None
    end
  else None.

Definition call_build_prompt (passage : str) (kw : kwargs) : option str :=
  match bind_kwargs kw with
  | Some s => Some (compose passage s)
  | None => None
  end.

(** ** Effects of a script run *)

Inductive exn_class : Type :=
  AttributeError | KeyError | IndexError | TypeError | ServiceError.

(** An exception, with the text [f"{exc}"] renders. *)
Record exn : Type := Exn { cls : exn_class; message : str }.

(** What a run does to the outside: the page it draws, the process
    environment, and the calls to the Vertex AI SDK. *)
Inductive event : Type :=
| StPageConfig (page_title page_icon : str)
| StTitle (text : str)
| StCaption (text : str)
| StHeader (text : str)
| StError (text : str)
| StWarning (text : str)
| StSpinner (text : str)
| StImage (image_bytes : list N) (caption : str)
| StSuccess (text : str)
| SetEnviron (key value : str)
| VertexInit (project location : str)
| FromPretrained (model_name : str)
| GenerateImages (model_name prompt : str).

(** How a computation ends: normally, by [st.stop()], or by an exception. *)
Inductive outcome (A : Type) : Type :=
| Done (a : A)
| Halted
| Raised (e : exn).

Arguments Done {A} a.
Arguments Halted {A}.
Arguments Raised {A} e.

(** A computation: the events it causes, in order, and how it ends. *)
Definition M (A : Type) : Type := (list event * outcome A)%type.

Definition ret {A : Type} (a : A) : M A := ([], Done a).

Definition bind {A B : Type} (m : M A) (k : A -> M B) : M B :=
  match m with
  | (log, Done a) => let (log', o) := k a in (log ++ log', o)
  | (log, Halted) => (log, Halted)
  | (log, Raised e) => (log, Raised e)
  end.

Definition emit (ev : event) : M unit := ([ev], Done tt).

(** [st.stop()]: the run ends here. *)
Definition st_stop {A : Type} : M A := ([], Halted).

Definition raise {A : Type} (e : exn) : M A := ([], Raised e).

(** [try: body / except Exception as exc: handler].  [st.stop()] is not an
    [Exception] and passes through. *)
Definition try_except {A : Type} (body : M A) (handler : exn -> M A) : M A :=
  match body with
  | (log, Raised e) => let (log', o) := handler e in (log ++ log', o)
  | other => other
  end.

Declare Scope py_scope.
Delimit Scope py_scope with py.
Notation "x <- m ;; k" := (bind m (fun x => k))
  (at level 61, m at next level, right associativity) : py_scope.
Notation "m ;; k" := (bind m (fun _ => k))
  (at level 61, right associativity) : py_scope.
Local Open Scope py_scope.

Definition trace {A : Type} (m : M A) : list event := fst m.
Definition result {A : Type} (m : M A) : outcome A := snd m.

(** ** The collaborators of [main] *)

Record env : Type := mkEnv {
  (** [os.path.exists(KEY_PATH)] *)
  key_file_exists : bool;
  (** [vertexai.init(...)]: the exception it raises, if any *)
  vertexai_init : option exn;
  (** the index the user picked in the select box of a given label *)
  choice : str -> nat;
  (** the content of the text area, given its prefilled value *)
  text_area : str -> str;
  (** whether the submit button was pressed for this run *)
  button : bool;
  (** [ImageGenerationModel.from_pretrained(name)]: its exception, if any *)
  from_pretrained : str -> option exn;
  (** [model.generate_images(prompt=...)]: the bytes of the images of the
      response, or the exception raised *)
  generate_images : str -> str -> list (list N) + exn;
  (** [st.image(image_bytes, ...)]: the exception it raises, if any (bytes
      that are no image) *)
  st_image : list N -> option exn
}.

Definition PROJECT_ID : str := utf8 "sesac-yoojikol".
Definition LOCATION : str := utf8 "us-central1".
Definition KEY_PATH : str := utf8 "gcp-key.json".
Definition MODEL_NAME : str := utf8 "imagen-4.0-generate-001".

Definition _init_vertex_ai (e : env) : M unit :=
  (if negb (key_file_exists e)
   then emit (StError (utf8 "'" ++ KEY_PATH ++ utf8 "' 키 파일이 없습니다.")) ;;
        st_stop
   else ret tt) ;;
  emit (SetEnviron (utf8 "GOOGLE_APPLICATION_CREDENTIALS") KEY_PATH) ;;
  try_except
    (emit (VertexInit PROJECT_ID LOCATION) ;;
     match vertexai_init e with
     | Some exc => raise exc
     | None => ret tt
     end)
    (fun exc =>
       emit (StError (utf8 "Vertex AI 초기화 실패: " ++ message exc)) ;;
       st_stop).

(** The option lists of the side bar. *)
Definition ART_STYLES : list str :=
  [utf8 "기본"; utf8 "수채화 일러스트"; utf8 "시네마틱 사진";
   utf8 "디지털 페인팅"; utf8 "유화"; utf8 "픽셀 아트"].
Definition MOODS : list str :=
  [utf8 "기본"; utf8 "따뜻하고 포근한"; utf8 "어둡고 미스터리한";
   utf8 "서스펜스 넘치는"; utf8 "감성적인"; utf8 "장엄하고 웅장한"].
Definition COLOUR_PALETTES : list str :=
  [utf8 "기본"; utf8 "따뜻한 색조"; utf8 "차가운 색조"; utf8 "모노톤";
   utf8 "파스텔"; utf8 "선명한 대비"].
Definition DETAIL_LEVELS : list str :=
  [utf8 "기본"; utf8 "초고해상도"; utf8 "울트라 디테일";
   utf8 "꿈결 같은 소프트 포커스"].
Definition CAMERA_FOCUSES : list str :=
  [utf8 "(선택 안 함)"; utf8 "광각 뷰"; utf8 "드론 뷰"; utf8 "클로즈업";
   utf8 "시점 샷 (POV)"; utf8 "시네마틱 와이드샷"].
Definition ERAS : list str :=
  [utf8 "(선택 안 함)"; utf8 "현대"; utf8 "중세 판타지"; utf8 "빅토리아 시대";
   utf8 "사이버펑크"; utf8 "포스트 아포칼립스"].

(** The dict [sample_passages], in insertion order. *)
Definition sample_passages : list (str * str) :=
  [(utf8 "마법 학교의 연회장",
    utf8 "촛불이 허공에 떠 있고 긴 식탁이 늘어선 고딕풍 연회장.");
   (utf8 "SF 우주 정거장",
    utf8 "거대한 유리창 너머로 푸른 행성이 보이고, 금속 질감의 복도가 이어진다.");
   (utf8 "고전 추리극",
    utf8 "비에 젖은 런던 골목, 가스등 아래 실루엣으로 보이는 탐정의 모습.")].

(** [d[key]] *)
Fixpoint dict_get (d : list (str * str)) (key : str) : M str :=
  match d with
  | [] => raise (Exn KeyError (utf8 "'" ++ key ++ utf8 "'"))
  | (k, v) :: rest => if eqb k key then ret v else dict_get rest key
  end.

(** [st.selectbox(label, options)]: the option the user picked, the first
    one when nothing was picked. *)
Definition selectbox (e : env) (label : str) (options : list str) : str :=
  nth (choice e label) options (hd [] options).

(** [response[0]._image_bytes] *)
Definition first_image (response : list (list N)) : M (list N) :=
  match response with
  | [] => raise (Exn IndexError (utf8 "list index out of range"))
  | img :: _ => ret img
  end.

Definition main (e : env) : M unit :=
  emit (StPageConfig (utf8 "Imagen Book Scene Studio") (utf8 "📖")) ;;
  emit (StTitle (utf8 "📖 책 장면을 이미지로 그려보기")) ;;
  emit (StCaption (utf8 "책의 문장을 기반으로 상상 속 장면을 시각화하세요. 옵션을 활용해 원하는 분위기와 스타일을 더해볼 수 있습니다.")) ;;
  _init_vertex_ai e ;;
  emit (StHeader (utf8 "🎨 스타일 옵션")) ;;
  let selected_sample :=
    selectbox e (utf8 "샘플 장면 불러오기")
      (utf8 "직접 입력" :: map fst sample_passages) in
  let art_style := selectbox e (utf8 "아트 스타일") ART_STYLES in
  let mood := selectbox e (utf8 "분위기") MOODS in
  let color_palette := selectbox e (utf8 "색상") COLOUR_PALETTES in
  let detail_level := selectbox e (utf8 "디테일") DETAIL_LEVELS in
  let camera_focus := selectbox e (utf8 "카메라 연출") CAMERA_FOCUSES in
  let era := selectbox e (utf8 "시대/배경") ERAS in
  default_passage <-
    (if neqb selected_sample (utf8 "직접 입력")
     then dict_get sample_passages selected_sample
     else ret []) ;;
  let passage := text_area e default_passage in
  let final_prompt :=
    _build_prompt passage art_style mood color_palette detail_level
      camera_focus era in
  if button e then
    (if negb (truthy (strip passage))
     then emit (StWarning (utf8 "책 속 장면을 입력해주세요.")) ;; st_stop
     else ret tt) ;;
    emit (StSpinner (utf8 "Imagen 모델이 상상을 그리는 중입니다...")) ;;
    try_except
      (emit (FromPretrained MODEL_NAME) ;;
       match from_pretrained e MODEL_NAME with
       | Some exc => raise exc
       | None =>
           emit (GenerateImages MODEL_NAME final_prompt) ;;
           match generate_images e MODEL_NAME final_prompt with
           | inr exc => raise exc
           | inl response =>
               image_bytes <- first_image response ;;
               match st_image e image_bytes with
               | Some exc => raise exc
               | None => emit (StImage image_bytes (utf8 "Result #1"))
               end ;;
               emit (StSuccess (utf8 "완료!"))
           end
       end)
      (fun exc => emit (StError (utf8 "오류: " ++ message exc)))
  else ret tt.

(** ** [_build_prompt] on arguments that may be [None]

    The annotations of [_build_prompt] are not enforced at run time.  Here
    the same body runs on arguments each of which is a string or [None],
    with the exceptions Python raises on them made explicit.  Arguments of
    other types are outside this model. *)

Module Dyn.

Inductive value : Type :=
| VStr (s : str)
| VNone.

(** [bool(v)] *)
Definition truthy (v : value) : bool :=
  match v with
  | VStr s => Py.truthy s
  | VNone => false
  end.

(** [a != b] *)
Definition ne (a b : value) : bool :=
  match a, b with
  | VStr x, VStr y => neqb x y
  | VNone, VNone => false
  | _, _ => true
  end.

(** [format(v)], what an f-string field renders. *)
Definition format (v : value) : str :=
  match v with
  | VStr s => s
  | VNone => utf8 "None"
  end.

(** [v.strip()] *)
Definition strip (v : value) : M value :=
  match v with
  | VStr s => ret (VStr (Py.strip s))
  | VNone =>
      raise (Exn AttributeError
               (utf8 "'NoneType' object has no attribute 'strip'"))
  end.

Fixpoint strings (parts : list value) : option (list str) :=
  match parts with
  | [] => Some []
  | VStr s :: rest =>
      match strings rest with
      | Some l => Some (s :: l)
      | None => None
      end
  | _ :: _ => None
  end.

(** [sep.join(parts)] *)
Definition join (sep : str) (parts : list value) : M value :=
  match strings parts with
  | Some l => ret (VStr (Py.join sep l))
  | None =>
      raise (Exn TypeError (utf8 "sequence item: expected str instance"))
  end.

Definition _append_if_content (parts : list value) (label : str)
  (v : value) : list value :=
  if truthy v && ne v (VStr DEFAULT_MARK) && ne v (VStr NOT_CHOSEN_MARK)
  then parts ++ [VStr (label ++ COLON_SPACE ++ format v)]
  else parts.

Definition _build_prompt
  (passage art_style mood color_palette detail_level camera_focus era : value)
  : M value :=
  let parts : list value := [] in
  passage <- strip passage ;;
  let parts := if truthy passage then parts ++ [passage] else parts in
  let parts := _append_if_content parts (utf8 "Art style") art_style in
  let parts := _append_if_content parts (utf8 "Mood") mood in
  let parts := _append_if_content parts (utf8 "Colour palette") color_palette in
  let parts := _append_if_content parts (utf8 "Detail") detail_level in
  let parts := _append_if_content parts (utf8 "Camera") camera_focus in
  let parts := _append_if_content parts (utf8 "Era") era in
  join DELIMITER parts.

End Dyn.

(** ** Vocabulary of the statements *)

(** Every option holds one of the two sentinel spellings. *)
Definition all_sentinel (s : StyleOptions) : bool :=
  forallb (fun f => is_sentinel (get f s)) FIELD_ORDER.

(** [f] holds a value that is not a sentinel spelling, and every other
    option holds a sentinel spelling. *)
Definition only_non_sentinel (s : StyleOptions) (f : field) : bool :=
  negb (is_sentinel (get f s))
  && forallb (fun g => field_eqb g f || is_sentinel (get g s)) FIELD_ORDER.

(** The string an argument stands for when [None] is read as "no
    selection". *)
Definition none_as_default (v : Dyn.value) : str :=
  match v with
  | Dyn.VStr s => s
  | Dyn.VNone => DEFAULT_MARK
  end.

(** The sentinel spelling other than [v]. *)
Definition other_sentinel (v : str) : str :=
  if eqb v DEFAULT_MARK then NOT_CHOSEN_MARK else DEFAULT_MARK.

(** The options after the user has set fields one after the other, starting
    from [s0]; the head of [picks] is set first. *)
Definition select_all (picks : kwargs) (s0 : StyleOptions) : StyleOptions :=
  fold_left (fun s fv => set (fst fv) (snd fv) s) picks s0.

(** The sample the side bar's first select box returns. *)
Definition selected_sample (e : env) : str :=
  selectbox e (utf8 "샘플 장면 불러오기")
    (utf8 "직접 입력" :: map fst sample_passages).

(** The value [main] prefills the text area with. *)
Definition default_passage (e : env) : str :=
  match find (fun kv => eqb (fst kv) (selected_sample e)) sample_passages with
  | Some kv => snd kv
  | None => []
  end.

(** The passage [main] reads from the text area. *)
Definition passage_read (e : env) : str := text_area e (default_passage e).

(** The events of [main] up to the side bar, when initialisation succeeds. *)
Definition PRELUDE : list event :=
  [StPageConfig (utf8 "Imagen Book Scene Studio") (utf8 "📖");
   StTitle (utf8 "📖 책 장면을 이미지로 그려보기");
   StCaption (utf8 "책의 문장을 기반으로 상상 속 장면을 시각화하세요. 옵션을 활용해 원하는 분위기와 스타일을 더해볼 수 있습니다.");
   SetEnviron (utf8 "GOOGLE_APPLICATION_CREDENTIALS") KEY_PATH;
   VertexInit PROJECT_ID LOCATION;
   StHeader (utf8 "🎨 스타일 옵션")].

Definition is_request (ev : event) : bool :=
  match ev with
  | FromPretrained _ | GenerateImages _ _ => true
  | _ => false
  end.

(** A run in which the user leaves every select box alone, with [content]
    in the text area and the submit button pressed; the service answers
    with one image, which [st.image] accepts. *)
Definition submit_run (content : str) : env :=
  mkEnv true None (fun _ => 0) (fun _ => content) true (fun _ => None)
    (fun _ _ => inl [[137; 80; 78; 71]%N]) (fun _ => None).

(** The option list the side bar offers for each field. *)
Definition catalog (f : field) : list str :=
  match f with
  | ArtStyle => ART_STYLES
  | Mood => MOODS
  | ColourPalette => COLOUR_PALETTES
  | Detail => DETAIL_LEVELS
  | Camera => CAMERA_FOCUSES
  | Era => ERAS
  end.

(** ** The runs of [main], case by case *)

(** The events of [main] before [_init_vertex_ai]. *)
Definition PAGE : list event :=
  [StPageConfig (utf8 "Imagen Book Scene Studio") (utf8 "📖");
   StTitle (utf8 "📖 책 장면을 이미지로 그려보기");
   StCaption (utf8 "책의 문장을 기반으로 상상 속 장면을 시각화하세요. 옵션을 활용해 원하는 분위기와 스타일을 더해볼 수 있습니다.")].

(** The six values [main] reads from the side bar. *)
Definition options_read (e : env) : StyleOptions :=
  mkStyle (selectbox e (utf8 "아트 스타일") ART_STYLES)
    (selectbox e (utf8 "분위기") MOODS)
    (selectbox e (utf8 "색상") COLOUR_PALETTES)
    (selectbox e (utf8 "디테일") DETAIL_LEVELS)
    (selectbox e (utf8 "카메라 연출") CAMERA_FOCUSES)
    (selectbox e (utf8 "시대/배경") ERAS).

(** [final_prompt] of [main]. *)
Definition final_prompt (e : env) : str :=
  compose (passage_read e) (options_read e).

(** The events of the [try] block of [main] and of its handler. *)
Definition generation_events (e : env) : list event :=
  FromPretrained MODEL_NAME ::
  match from_pretrained e MODEL_NAME with
  | Some exc => [StError (utf8 "오류: " ++ message exc)]
  | None =>
      GenerateImages MODEL_NAME (final_prompt e) ::
      match generate_images e MODEL_NAME (final_prompt e) with
      | inr exc => [StError (utf8 "오류: " ++ message exc)]
      | inl [] => [StError (utf8 "오류: list index out of range")]
      | inl (image_bytes :: _) =>
          match st_image e image_bytes with
          | Some exc => [StError (utf8 "오류: " ++ message exc)]
          | None =>
              [StImage image_bytes (utf8 "Result #1"); StSuccess (utf8 "완료!")]
          end
      end
  end.

(** What a run of [main] amounts to, by the answers of its collaborators. *)
Definition main_cases (e : env) : M unit :=
  if negb (key_file_exists e) then
    (PAGE ++ [StError (utf8 "'gcp-key.json' 키 파일이 없습니다.")], Halted)
  else
    match vertexai_init e with
    | Some exc =>
        (PAGE ++ [SetEnviron (utf8 "GOOGLE_APPLICATION_CREDENTIALS") KEY_PATH;
                  VertexInit PROJECT_ID LOCATION;
                  StError (utf8 "Vertex AI 초기화 실패: " ++ message exc)],
         Halted)
    | None =>
        if negb (button e) then (PRELUDE, Done tt)
        else if negb (truthy (strip (passage_read e))) then
          (PRELUDE ++ [StWarning (utf8 "책 속 장면을 입력해주세요.")], Halted)
        else
          (PRELUDE
             ++ StSpinner (utf8 "Imagen 모델이 상상을 그리는 중입니다...")
             :: generation_events e,
           Done tt)
    end.

Definition is_generate (ev : event) : bool :=
  match ev with GenerateImages _ _ => true | _ => false end.

Definition is_load (ev : event) : bool :=
  match ev with FromPretrained _ => true | _ => false end.

Definition is_warning (ev : event) : bool :=
  match ev with StWarning _ => true | _ => false end.

Definition is_error (ev : event) : bool :=
  match ev with StError _ => true | _ => false end.

Definition is_sdk_call (ev : event) : bool :=
  match ev with
  | SetEnviron _ _ | VertexInit _ _ | FromPretrained _ | GenerateImages _ _ => true
  | _ => false
  end.

(** Each option holds an entry of the option list of its field or a
    sentinel spelling: the values a record of style options may hold. *)
Definition valid_options (s : StyleOptions) : bool :=
  forallb (fun f => existsb (eqb (get f s)) (catalog f) || is_sentinel (get f s))
    FIELD_ORDER.

(** * Properties *)

(** ** Strings: basic facts *)

Example sentinel_code_points :
  DEFAULT_MARK = [44592; 48376]%N /\
  NOT_CHOSEN_MARK = [40; 49440; 53469; 32; 50504; 32; 54632; 41]%N.
Proof. split; reflexivity. Qed.

Example utf8_four_bytes : utf8 "📖" = [128214]%N.
Proof. reflexivity. Qed.

Example strip_both_ends : strip (utf8 "  A dark castle. ") = utf8 "A dark castle.".
Proof. reflexivity. Qed.

Example strip_keeps_inner_space :
  strip [9; 12288; 72; 105; 32; 33; 160; 10]%N = [72; 105; 32; 33]%N.
Proof. reflexivity. Qed.

Example ocean :
  _build_prompt (utf8 "Ocean view") DEFAULT_MARK (utf8 "따뜻하고 포근한")
    DEFAULT_MARK DEFAULT_MARK NOT_CHOSEN_MARK (utf8 "현대")
  = utf8 "Ocean view | Mood: 따뜻하고 포근한 | Era: 현대".
Proof. vm_compute. reflexivity. Qed.


Lemma eqb_eq (a b : str) : eqb a b = true <-> a = b.
Proof.
  revert b; induction a as [|x a IH]; intros [|y b]; simpl;
    try (split; [discriminate | congruence]); try tauto.
  rewrite andb_true_iff, N.eqb_eq, IH. split.
  - intros [-> ->]; reflexivity.
  - intros H; inversion H; auto.
Qed.

Lemma eqb_refl (a : str) : eqb a a = true.
Proof. apply eqb_eq; reflexivity. Qed.

Lemma neqb_true (a b : str) : neqb a b = true <-> a <> b.
Proof.
  unfold neqb. rewrite negb_true_iff, <- not_true_iff_false, eqb_eq. tauto.
Qed.

Lemma truthy_true (v : str) : truthy v = true <-> v <> [].
Proof. destruct v; simpl; split; congruence. Qed.

Lemma lstrip_blank (p : str) : blank p = true -> lstrip p = [].
Proof.
  induction p as [|c p IH]; simpl; [reflexivity|].
  rewrite andb_true_iff. intros [-> H]. auto.
Qed.

Lemma strip_blank (p : str) : blank p = true -> strip p = [].
Proof. intros H. unfold strip. rewrite lstrip_blank by assumption. reflexivity. Qed.

Lemma join_one (sep x : str) : join sep [x] = x.
Proof. reflexivity. Qed.

(** ** The shape of [parts] *)

Lemma has_content_sentinel (v : str) : is_sentinel v = true -> has_content v = false.
Proof.
  unfold is_sentinel, has_content, neqb. rewrite orb_true_iff.
  intros [H|H]; rewrite H; simpl; now rewrite ?andb_false_r.
Qed.

Lemma has_content_iff (v : str) :
  has_content v = true <-> v <> [] /\ is_sentinel v = false.
Proof.
  unfold has_content, is_sentinel, neqb.
  rewrite !andb_true_iff, truthy_true, orb_false_iff, !negb_true_iff. tauto.
Qed.

Lemma _append_if_content_eq (parts : list str) (l v : str) :
  _append_if_content parts l v
  = parts ++ (if has_content v then [l ++ COLON_SPACE ++ v] else []).
Proof.
  unfold _append_if_content. fold (has_content v).
  destruct (has_content v); [reflexivity | now rewrite app_nil_r].
Qed.

Lemma parts_of_shape (p : str) (s : StyleOptions) :
  parts_of p s = passage_part p ++ field_segments s.
Proof.
  unfold parts_of, build_parts, field_segments, emitted, passage_part, segment.
  rewrite !_append_if_content_eq. simpl.
  destruct (truthy (strip p)); simpl;
    destruct (has_content (art_style s)), (has_content (mood s)),
      (has_content (color_palette s)), (has_content (detail_level s)),
      (has_content (camera_focus s)), (has_content (era s)); reflexivity.
Qed.

Lemma compose_shape (p : str) (s : StyleOptions) :
  compose p s = join DELIMITER (passage_part p ++ field_segments s).
Proof. unfold compose, _build_prompt. now rewrite <- parts_of_shape. Qed.

Lemma has_content_false_iff (v : str) :
  has_content v = false <-> v = [] \/ is_sentinel v = true.
Proof.
  destruct (has_content v) eqn:E.
  - apply has_content_iff in E as [E1 E2]. split; [discriminate|].
    intros [H|H]; congruence.
  - split; [intros _|reflexivity].
    destruct v as [|c v]; [now left|right].
    destruct (is_sentinel (c :: v)) eqn:Es; [reflexivity|].
    assert (H : has_content (c :: v) = true)
      by (apply has_content_iff; split; [discriminate|assumption]).
    congruence.
Qed.

Lemma _append_if_content_skip (parts : list str) (l v : str) :
  has_content v = false -> _append_if_content parts l v = parts.
Proof. intros H. rewrite _append_if_content_eq, H. apply app_nil_r. Qed.

Lemma _append_if_content_push (parts : list str) (l v : str) :
  has_content v = true ->
  _append_if_content parts l v = parts ++ [l ++ COLON_SPACE ++ v].
Proof. intros H. now rewrite _append_if_content_eq, H. Qed.

Lemma passage_part_blank (p : str) : blank p = true -> passage_part p = [].
Proof. intros H. unfold passage_part. now rewrite strip_blank. Qed.

Lemma join_passage_part (p : str) : join DELIMITER (passage_part p) = strip p.
Proof.
  unfold passage_part. destruct (strip p); reflexivity.
Qed.

Lemma emitted_In (s : StyleOptions) (f : field) :
  In f (emitted s) <-> has_content (get f s) = true.
Proof.
  unfold emitted. rewrite filter_In. split; [tauto|].
  intros H; split; [|assumption].
  destruct f; simpl; tauto.
Qed.

Lemma all_sentinel_get (s : StyleOptions) :
  all_sentinel s = true -> forall f, is_sentinel (get f s) = true.
Proof.
  unfold all_sentinel. rewrite forallb_forall. intros H f. apply H.
  destruct f; simpl; tauto.
Qed.

Lemma emitted_nil (s : StyleOptions) :
  (forall f, has_content (get f s) = false) -> emitted s = [].
Proof.
  intros H. unfold emitted, FIELD_ORDER.
  pose proof (H ArtStyle) as H1. pose proof (H Mood) as H2.
  pose proof (H ColourPalette) as H3. pose proof (H Detail) as H4.
  pose proof (H Camera) as H5. pose proof (H Era) as H6.
  simpl in *. now rewrite H1, H2, H3, H4, H5, H6.
Qed.

(** Two segments with the same text belong to the same field: the six
    labels differ within their first two characters. *)
Lemma segment_label_inj (f g : field) (v w : str) :
  label f ++ COLON_SPACE ++ v = label g ++ COLON_SPACE ++ w -> f = g.
Proof.
  destruct f, g; intros H; try reflexivity; vm_compute in H; discriminate H.
Qed.

(** ** The prompt composer *)

(** C1: when all six options hold a sentinel spelling, the composer returns
    exactly the trimmed passage, and the empty string when the passage is
    empty or whitespace only. *)
Theorem C1_all_sentinel_gives_trimmed_passage (p : str) (s : StyleOptions) :
  all_sentinel s = true ->
  compose p s = strip p /\ (blank p = true -> compose p s = []).
Proof.
  intros Hall.
  assert (E : compose p s = strip p).
  { rewrite compose_shape. unfold field_segments.
    rewrite emitted_nil.
    - simpl. rewrite app_nil_r. apply join_passage_part.
    - intros f. apply has_content_sentinel, all_sentinel_get, Hall. }
  split; [exact E|].
  intros Hb. rewrite E. now apply strip_blank.
Qed.

Lemma C1_witness :
  let s := mkStyle DEFAULT_MARK DEFAULT_MARK DEFAULT_MARK DEFAULT_MARK
             NOT_CHOSEN_MARK NOT_CHOSEN_MARK in
  all_sentinel s = true /\ blank (utf8 "  ") = true /\
  compose (utf8 "  ") s = [].
Proof.
  split; [reflexivity|]. split; [reflexivity|].
  refine (proj2 (C1_all_sentinel_gives_trimmed_passage (utf8 "  ")
            (mkStyle DEFAULT_MARK DEFAULT_MARK DEFAULT_MARK DEFAULT_MARK
               NOT_CHOSEN_MARK NOT_CHOSEN_MARK) _) _); reflexivity.
Defined.

Lemma emitted_only (s : StyleOptions) (f : field) :
  has_content (get f s) = true ->
  (forall g, g <> f -> has_content (get g s) = false) ->
  emitted s = [f].
Proof.
  intros Hf Hg. unfold emitted, FIELD_ORDER.
  assert (H : forall g, has_content (get g s) = field_eqb g f).
  { intros g. destruct g, f; simpl field_eqb;
      solve [exact Hf | apply Hg; discriminate]. }
  pose proof (H ArtStyle) as H1. pose proof (H Mood) as H2.
  pose proof (H ColourPalette) as H3. pose proof (H Detail) as H4.
  pose proof (H Camera) as H5. pose proof (H Era) as H6.
  simpl filter. simpl get in *. rewrite H1, H2, H3, H4, H5, H6.
  destruct f; reflexivity.
Qed.

Lemma only_non_sentinel_others (s : StyleOptions) (f : field) :
  only_non_sentinel s f = true ->
  is_sentinel (get f s) = false /\
  forall g, g <> f -> is_sentinel (get g s) = true.
Proof.
  unfold only_non_sentinel. rewrite andb_true_iff, negb_true_iff, forallb_forall.
  intros [Hf Hall]. split; [exact Hf|].
  intros g Hne.
  assert (Hin : In g FIELD_ORDER) by (destruct g; simpl; tauto).
  apply Hall in Hin. apply orb_true_iff in Hin as [Heq|Hs]; [|exact Hs].
  exfalso. apply Hne. destruct g, f; simpl in Heq; congruence.
Qed.

Lemma compose_single (p : str) (s : StyleOptions) (f : field) :
  blank p = true ->
  has_content (get f s) = true ->
  (forall g, g <> f -> has_content (get g s) = false) ->
  compose p s = segment s f.
Proof.
  intros Hp Hf Hg. rewrite compose_shape, passage_part_blank by assumption.
  unfold field_segments. now rewrite (emitted_only s f Hf Hg).
Qed.

Lemma compose_only_non_sentinel (p : str) (s : StyleOptions) (f : field) :
  blank p = true ->
  only_non_sentinel s f = true ->
  get f s <> [] ->
  compose p s = segment s f.
Proof.
  intros Hp Hone Hne.
  apply only_non_sentinel_others in Hone as [Hf Hg].
  apply (compose_single p s f Hp).
  - apply has_content_iff. now split.
  - intros g Hgf. apply has_content_sentinel, Hg, Hgf.
Qed.

(** No option the side bar offers is the empty string, so on the values of
    the option lists a single non-sentinel option always gives its segment. *)
Lemma catalog_not_empty (f : field) (v : str) : In v (catalog f) -> v <> [].
Proof.
  intros Hin Hv. subst v. destruct f; vm_compute in Hin;
    repeat (destruct Hin as [Hin|Hin]; [discriminate Hin|]); exact Hin.
Qed.

Lemma compose_single_catalog_option (p : str) (s : StyleOptions) (f : field) :
  blank p = true ->
  only_non_sentinel s f = true ->
  In (get f s) (catalog f) ->
  compose p s = segment s f.
Proof.
  intros Hp Hone Hin. apply compose_only_non_sentinel; try assumption.
  now apply (catalog_not_empty f).
Qed.

Example dark_castle :
  compose (utf8 "A dark castle.")
    (mkStyle (utf8 "수채화 일러스트") DEFAULT_MARK DEFAULT_MARK DEFAULT_MARK
       NOT_CHOSEN_MARK NOT_CHOSEN_MARK)
  = utf8 "A dark castle. | Art style: 수채화 일러스트".
Proof. vm_compute. reflexivity. Qed.

Lemma In_FIELD_ORDER (f : field) : In f FIELD_ORDER.
Proof. destruct f; simpl; tauto. Qed.

Lemma valid_options_non_sentinel (s : StyleOptions) (f : field) :
  valid_options s = true -> is_sentinel (get f s) = false ->
  In (get f s) (catalog f).
Proof.
  unfold valid_options. rewrite forallb_forall. intros Hv Hf.
  specialize (Hv f (In_FIELD_ORDER f)). rewrite Hf, orb_false_r in Hv.
  apply existsb_exists in Hv as [v [Hin Heq]].
  apply eqb_eq in Heq. now rewrite Heq.
Qed.

(** C2: for every record of options, each holding an entry of its option
    list or a sentinel spelling, when the passage is empty or whitespace
    only and exactly one option [f] holds a non-sentinel value [v], the
    composer returns exactly the single segment ["Label(f): v"], with no
    delimiter and no passage segment before it. *)
Theorem C2_single_option_segment (p : str) (s : StyleOptions) (f : field) :
  valid_options s = true ->
  blank p = true ->
  only_non_sentinel s f = true ->
  compose p s = label f ++ COLON_SPACE ++ get f s.
Proof.
  intros Hv Hp Hone. apply compose_only_non_sentinel; try assumption.
  destruct (only_non_sentinel_others s f Hone) as [Hf _].
  apply (catalog_not_empty f). now apply valid_options_non_sentinel.
Qed.

Lemma C2_witness :
  let s := mkStyle DEFAULT_MARK DEFAULT_MARK (utf8 "파스텔") DEFAULT_MARK
             NOT_CHOSEN_MARK NOT_CHOSEN_MARK in
  valid_options s = true /\ blank (utf8 " ") = true /\
  only_non_sentinel s ColourPalette = true /\
  compose (utf8 " ") s = utf8 "Colour palette: 파스텔".
Proof.
  split; [vm_compute; reflexivity|].
  split; [reflexivity|]. split; [reflexivity|].
  apply (C2_single_option_segment (utf8 " ")
           (mkStyle DEFAULT_MARK DEFAULT_MARK (utf8 "파스텔") DEFAULT_MARK
              NOT_CHOSEN_MARK NOT_CHOSEN_MARK) ColourPalette);
    vm_compute; reflexivity.
Defined.

(** C3: an option whose value is either sentinel spelling, whichever field
    it is, adds no segment: its [_append_if_content] call leaves [parts]
    as it was, the field is not among those the prompt is joined from, and
    no segment after the passage reads ["Label(f): value"]. *)
Theorem C3_sentinel_field_has_no_segment
  (p : str) (s : StyleOptions) (f : field) :
  is_sentinel (get f s) = true ->
  (forall parts, _append_if_content parts (label f) (get f s) = parts) /\
  compose p s = join DELIMITER (passage_part p ++ map (segment s) (emitted s)) /\
  ~ In f (emitted s) /\
  ~ In (label f ++ COLON_SPACE ++ get f s) (map (segment s) (emitted s)).
Proof.
  intros Hs. pose proof (has_content_sentinel _ Hs) as Hc.
  split; [intros parts; now apply _append_if_content_skip|].
  split; [apply compose_shape|].
  assert (Hnot : ~ In f (emitted s)).
  { rewrite emitted_In. congruence. }
  split; [exact Hnot|].
  intros Hin. apply in_map_iff in Hin as [g [Heq Hg]].
  apply segment_label_inj in Heq. subst g. exact (Hnot Hg).
Qed.

Lemma C3_witness :
  let s := mkStyle NOT_CHOSEN_MARK (utf8 "감성적인") DEFAULT_MARK DEFAULT_MARK
             DEFAULT_MARK (utf8 "현대") in
  is_sentinel (get ArtStyle s) = true /\
  ~ In (utf8 "Art style: (선택 안 함)") (map (segment s) (emitted s)).
Proof.
  split; [reflexivity|].
  apply (C3_sentinel_field_has_no_segment (utf8 "A dark castle.")
           (mkStyle NOT_CHOSEN_MARK (utf8 "감성적인") DEFAULT_MARK DEFAULT_MARK
              DEFAULT_MARK (utf8 "현대")) ArtStyle).
  reflexivity.
Defined.

Lemma get_set_same (f : field) (v : str) (s : StyleOptions) :
  get f (set f v s) = v.
Proof. destruct f; reflexivity. Qed.

Lemma get_set_other (f g : field) (v : str) (s : StyleOptions) :
  g <> f -> get g (set f v s) = get g s.
Proof. destruct f, g; intros H; try reflexivity; now elim H. Qed.

(** Replacing a value that adds no segment by another such value leaves
    the composed prompt as it was. *)
Lemma compose_set_skipped (p : str) (s : StyleOptions) (f : field) (v : str) :
  has_content (get f s) = false ->
  has_content v = false ->
  compose p (set f v s) = compose p s.
Proof.
  intros Hold Hnew. unfold compose, _build_prompt, build_parts.
  destruct f; simpl in *;
    rewrite ?(_append_if_content_skip _ _ _ Hold),
            ?(_append_if_content_skip _ _ _ Hnew); reflexivity.
Qed.

Lemma other_sentinel_is_sentinel (v : str) : is_sentinel (other_sentinel v) = true.
Proof. unfold other_sentinel. destruct (eqb v DEFAULT_MARK); reflexivity. Qed.

Lemma other_sentinel_differs (v : str) :
  is_sentinel v = true -> other_sentinel v <> v.
Proof.
  unfold is_sentinel, other_sentinel. intros H.
  destruct (eqb v DEFAULT_MARK) eqn:E.
  - apply eqb_eq in E. subst v. discriminate.
  - simpl in H. apply eqb_eq in H. subst v. discriminate.
Qed.

(** C5: when an option holds a sentinel spelling, replacing it by the other
    spelling leaves the composed prompt unchanged. *)
Theorem C5_sentinel_spelling_irrelevant
  (p : str) (s : StyleOptions) (f : field) :
  is_sentinel (get f s) = true ->
  other_sentinel (get f s) <> get f s /\
  is_sentinel (other_sentinel (get f s)) = true /\
  compose p (set f (other_sentinel (get f s)) s) = compose p s.
Proof.
  intros Hs. split; [now apply other_sentinel_differs|].
  split; [apply other_sentinel_is_sentinel|].
  apply compose_set_skipped; apply has_content_sentinel;
    [exact Hs | apply other_sentinel_is_sentinel].
Qed.

Lemma C5_witness :
  let s := mkStyle (utf8 "유화") DEFAULT_MARK DEFAULT_MARK DEFAULT_MARK
             NOT_CHOSEN_MARK NOT_CHOSEN_MARK in
  is_sentinel (get Camera s) = true /\
  compose (utf8 "A dark castle.") (set Camera DEFAULT_MARK s)
  = compose (utf8 "A dark castle.") s.
Proof.
  split; [reflexivity|].
  apply (C5_sentinel_spelling_irrelevant (utf8 "A dark castle.")
           (mkStyle (utf8 "유화") DEFAULT_MARK DEFAULT_MARK DEFAULT_MARK
              NOT_CHOSEN_MARK NOT_CHOSEN_MARK) Camera).
  reflexivity.
Defined.

(** C6: for the passage "Ocean view", the mood "따뜻하고 포근한", the era
    "현대" and a sentinel spelling in each other option, the composer
    returns "Ocean view | Mood: 따뜻하고 포근한 | Era: 현대": three parts,
    the era segment last, after the mood segment. *)
Theorem C6_ocean_view (a c d k : str) :
  is_sentinel a = true -> is_sentinel c = true ->
  is_sentinel d = true -> is_sentinel k = true ->
  let s := mkStyle a (utf8 "따뜻하고 포근한") c d k (utf8 "현대") in
  compose (utf8 "Ocean view") s
  = utf8 "Ocean view | Mood: 따뜻하고 포근한 | Era: 현대" /\
  parts_of (utf8 "Ocean view") s
  = [utf8 "Ocean view"; utf8 "Mood: 따뜻하고 포근한"; utf8 "Era: 현대"].
Proof.
  intros Ha Hc Hd Hk s.
  apply has_content_sentinel in Ha, Hc, Hd, Hk.
  assert (E : parts_of (utf8 "Ocean view") s
              = [utf8 "Ocean view"; utf8 "Mood: 따뜻하고 포근한"; utf8 "Era: 현대"]).
  { unfold parts_of, build_parts, s. simpl art_style. simpl mood.
    simpl color_palette. simpl detail_level. simpl camera_focus. simpl era.
    rewrite (_append_if_content_skip _ _ a Ha).
    rewrite (_append_if_content_skip _ _ c Hc).
    rewrite (_append_if_content_skip _ _ d Hd).
    rewrite (_append_if_content_skip _ _ k Hk).
    reflexivity. }
  split; [|exact E].
  unfold compose, _build_prompt. fold (parts_of (utf8 "Ocean view") s).
  rewrite E. reflexivity.
Qed.

Lemma C6_witness :
  compose (utf8 "Ocean view")
    (mkStyle DEFAULT_MARK (utf8 "따뜻하고 포근한") DEFAULT_MARK DEFAULT_MARK
       NOT_CHOSEN_MARK (utf8 "현대"))
  = utf8 "Ocean view | Mood: 따뜻하고 포근한 | Era: 현대".
Proof.
  apply (C6_ocean_view DEFAULT_MARK DEFAULT_MARK DEFAULT_MARK NOT_CHOSEN_MARK);
    reflexivity.
Defined.

(** C9: the empty string is not a sentinel spelling, yet an option holding
    it adds no segment, and the prompt is the one composed with a sentinel
    spelling in its place. *)
Theorem C9_empty_value_omitted (p : str) (s : StyleOptions) (f : field) :
  get f s = [] ->
  is_sentinel (get f s) = false /\
  (forall parts, _append_if_content parts (label f) (get f s) = parts) /\
  ~ In f (emitted s) /\
  compose p s = compose p (set f DEFAULT_MARK s) /\
  compose p s = compose p (set f NOT_CHOSEN_MARK s).
Proof.
  intros He.
  assert (Hc : has_content (get f s) = false) by now rewrite He.
  split; [now rewrite He|].
  split; [intros parts; now apply _append_if_content_skip|].
  split; [rewrite emitted_In; congruence|].
  split; symmetry; now apply compose_set_skipped.
Qed.

Lemma C9_witness :
  let s := mkStyle DEFAULT_MARK [] DEFAULT_MARK DEFAULT_MARK
             NOT_CHOSEN_MARK (utf8 "현대") in
  get Mood s = [] /\
  compose (utf8 "Ocean view") s = utf8 "Ocean view | Era: 현대" /\
  compose (utf8 "Ocean view") s
  = compose (utf8 "Ocean view") (set Mood DEFAULT_MARK s).
Proof.
  split; [reflexivity|]. split; [reflexivity|].
  apply (C9_empty_value_omitted (utf8 "Ocean view")
           (mkStyle DEFAULT_MARK [] DEFAULT_MARK DEFAULT_MARK
              NOT_CHOSEN_MARK (utf8 "현대")) Mood).
  reflexivity.
Defined.

(** C10: a value that is neither empty nor a sentinel spelling enters the
    prompt as it is, untrimmed: the segment appended is the label, ": " and
    the value itself, which differs from the segment of the trimmed value
    whenever trimming would change the value. *)
Theorem C10_values_inserted_verbatim
  (p : str) (s : StyleOptions) (f : field) :
  get f s <> [] ->
  is_sentinel (get f s) = false ->
  (forall parts,
      _append_if_content parts (label f) (get f s)
      = parts ++ [label f ++ COLON_SPACE ++ get f s]) /\
  In (label f ++ COLON_SPACE ++ get f s) (parts_of p s) /\
  (strip (get f s) <> get f s ->
   ~ In (label f ++ COLON_SPACE ++ strip (get f s)) (field_segments s)) /\
  (blank p = true -> only_non_sentinel s f = true ->
   compose p s = label f ++ COLON_SPACE ++ get f s).
Proof.
  intros Hne Hs.
  assert (Hc : has_content (get f s) = true) by (apply has_content_iff; now split).
  split; [intros parts; now apply _append_if_content_push|].
  split.
  { rewrite parts_of_shape. apply in_or_app. right.
    unfold field_segments. apply in_map_iff. exists f. split; [reflexivity|].
    now apply emitted_In. }
  split.
  { intros Hdiff Hin. unfold field_segments in Hin.
    apply in_map_iff in Hin as [g [Heq Hg]]. unfold segment in Heq.
    pose proof (segment_label_inj _ _ _ _ Heq) as ->.
    apply app_inv_head in Heq. apply app_inv_head in Heq. congruence. }
  intros Hp Hone. now apply compose_only_non_sentinel.
Qed.

Lemma C10_witness :
  let s := mkStyle (utf8 " ") DEFAULT_MARK DEFAULT_MARK DEFAULT_MARK
             NOT_CHOSEN_MARK NOT_CHOSEN_MARK in
  get ArtStyle s <> [] /\ is_sentinel (get ArtStyle s) = false /\
  In (utf8 "Art style:  ") (parts_of (utf8 " x ") s) /\
  compose [] s = utf8 "Art style:  ".
Proof.
  split; [discriminate|]. split; [reflexivity|].
  pose proof (C10_values_inserted_verbatim (utf8 " x ")
                (mkStyle (utf8 " ") DEFAULT_MARK DEFAULT_MARK DEFAULT_MARK
                   NOT_CHOSEN_MARK NOT_CHOSEN_MARK) ArtStyle) as H.
  split; [apply H; [discriminate | reflexivity] | reflexivity].
Defined.

(** ** Order of the keywords and of the selections *)

Lemma field_eqb_eq (f g : field) : field_eqb f g = true <-> f = g.
Proof. destruct f, g; simpl; split; congruence. Qed.

Lemma field_eqb_refl (f : field) : field_eqb f f = true.
Proof. now apply field_eqb_eq. Qed.

Lemma field_eqb_neq (f g : field) : f <> g -> field_eqb f g = false.
Proof.
  intros H. destruct (field_eqb f g) eqn:E; [|reflexivity].
  apply field_eqb_eq in E. contradiction.
Qed.

Lemma distinct_keys_NoDup (kw : kwargs) :
  distinct_keys kw = true <-> NoDup (map fst kw).
Proof.
  induction kw as [|[g v] kw IH]; simpl.
  - split; [constructor | reflexivity].
  - rewrite andb_true_iff, negb_true_iff, IH. split.
    + intros [Hn Hd]. constructor; [|exact Hd].
      intros Hin. apply not_true_iff_false in Hn. apply Hn.
      apply existsb_exists. exists g. split; [exact Hin | apply field_eqb_refl].
    + intros H. inversion H as [|x l Hn Hd]; subst. split; [|exact Hd].
      apply not_true_iff_false. intros Hex.
      apply existsb_exists in Hex as [h [Hin Heq]].
      apply field_eqb_eq in Heq. subst h. contradiction.
Qed.

Lemma lookup_In (f : field) (v : str) (kw : kwargs) :
  lookup f kw = Some v -> In (f, v) kw.
Proof.
  induction kw as [|[g w] kw IH]; simpl; [discriminate|].
  destruct (field_eqb f g) eqn:E.
  - apply field_eqb_eq in E. subst g. intros [= ->]. now left.
  - intros H. right. now apply IH.
Qed.

Lemma In_lookup (f : field) (v : str) (kw : kwargs) :
  NoDup (map fst kw) -> In (f, v) kw -> lookup f kw = Some v.
Proof.
  induction kw as [|[g w] kw IH]; simpl; [tauto|].
  intros Hnd [Heq|Hin].
  - injection Heq as -> ->. now rewrite field_eqb_refl.
  - inversion Hnd as [|x l Hn Hd]; subst.
    destruct (field_eqb f g) eqn:E; [|now apply IH].
    apply field_eqb_eq in E. subst g. exfalso. apply Hn.
    change f with (fst (f, v)). now apply in_map.
Qed.

Lemma lookup_Permutation (f : field) (kw kw' : kwargs) :
  NoDup (map fst kw) -> Permutation kw kw' -> lookup f kw = lookup f kw'.
Proof.
  intros Hnd Hp.
  assert (Hnd' : NoDup (map fst kw')).
  { eapply Permutation_NoDup; [|exact Hnd]. now apply Permutation_map. }
  destruct (lookup f kw) as [v|] eqn:E.
  - symmetry. apply In_lookup; [exact Hnd'|].
    eapply Permutation_in; [exact Hp|]. now apply lookup_In.
  - destruct (lookup f kw') as [v'|] eqn:E'; [|reflexivity].
    apply lookup_In in E'. apply Permutation_sym in Hp.
    apply (Permutation_in _ Hp) in E'.
    apply (In_lookup _ _ _ Hnd) in E'. congruence.
Qed.

Lemma distinct_keys_Permutation (kw kw' : kwargs) :
  Permutation kw kw' -> distinct_keys kw = distinct_keys kw'.
Proof.
  intros Hp.
  assert (H : distinct_keys kw = true <-> distinct_keys kw' = true).
  { rewrite !distinct_keys_NoDup. split; apply Permutation_NoDup;
      apply Permutation_map; [exact Hp | now apply Permutation_sym]. }
  destruct (distinct_keys kw), (distinct_keys kw'); intuition congruence.
Qed.

Lemma bind_kwargs_Permutation (kw kw' : kwargs) :
  Permutation kw kw' -> bind_kwargs kw = bind_kwargs kw'.
Proof.
  intros Hp. unfold bind_kwargs.
  rewrite <- (distinct_keys_Permutation kw kw' Hp).
  destruct (distinct_keys kw) eqn:E; [|reflexivity].
  apply distinct_keys_NoDup in E.
  now rewrite !(fun f => lookup_Permutation f kw kw' E Hp).
Qed.

Lemma StyleOptions_ext (s s' : StyleOptions) :
  (forall f, get f s = get f s') -> s = s'.
Proof.
  intros H. destruct s, s'.
  pose proof (H ArtStyle). pose proof (H Mood). pose proof (H ColourPalette).
  pose proof (H Detail). pose proof (H Camera). pose proof (H Era).
  simpl in *. congruence.
Qed.

Lemma get_select_all (g : field) (picks : kwargs) (s0 : StyleOptions) :
  NoDup (map fst picks) ->
  get g (select_all picks s0)
  = match lookup g picks with Some v => v | None => get g s0 end.
Proof.
  revert s0. induction picks as [|[f v] picks IH]; intros s0 Hnd; simpl.
  - reflexivity.
  - inversion Hnd as [|x l Hn Hd]; subst.
    unfold select_all in *. simpl. rewrite (IH _ Hd).
    destruct (field_eqb g f) eqn:E.
    + apply field_eqb_eq in E. subst g.
      destruct (lookup f picks) as [w|] eqn:El.
      * exfalso. apply Hn. apply lookup_In in El.
        change f with (fst (f, w)). now apply in_map.
      * apply get_set_same.
    + destruct (lookup g picks); [reflexivity|].
      apply get_set_other. intros ->. now rewrite field_eqb_refl in E.
Qed.

Lemma select_all_Permutation (picks picks' : kwargs) (s0 : StyleOptions) :
  NoDup (map fst picks) -> Permutation picks picks' ->
  select_all picks s0 = select_all picks' s0.
Proof.
  intros Hnd Hp. apply StyleOptions_ext. intros g.
  assert (Hnd' : NoDup (map fst picks')).
  { eapply Permutation_NoDup; [|exact Hnd]. now apply Permutation_map. }
  rewrite !get_select_all by assumption.
  now rewrite (lookup_Permutation g picks picks' Hnd Hp).
Qed.

(** C4: the option segments follow the passage in the order art style,
    mood, palette, detail, camera, era, whatever order the options are
    supplied or selected in: a call that writes its keywords in another
    order returns the same prompt, and so does a composition after the
    same selections made in another order. *)
Theorem C4_field_order_fixed
  (p : str) (kw kw' : kwargs) (s0 : StyleOptions) :
  Permutation kw kw' ->
  call_build_prompt p kw = call_build_prompt p kw' /\
  (NoDup (map fst kw) ->
   compose p (select_all kw s0) = compose p (select_all kw' s0)) /\
  (forall s,
      parts_of p s
      = passage_part p
        ++ map (segment s) (filter (fun f => has_content (get f s)) FIELD_ORDER)).
Proof.
  intros Hp. split; [|split].
  - unfold call_build_prompt. now rewrite (bind_kwargs_Permutation kw kw' Hp).
  - intros Hnd. now rewrite (select_all_Permutation kw kw' s0 Hnd Hp).
  - intros s. apply parts_of_shape.
Qed.

Lemma C4_witness :
  let kw := [(Era, utf8 "현대"); (Mood, utf8 "따뜻하고 포근한");
             (ArtStyle, DEFAULT_MARK); (Camera, NOT_CHOSEN_MARK);
             (Detail, DEFAULT_MARK); (ColourPalette, DEFAULT_MARK)] in
  call_build_prompt (utf8 "Ocean view") kw
  = Some (utf8 "Ocean view | Mood: 따뜻하고 포근한 | Era: 현대") /\
  call_build_prompt (utf8 "Ocean view") kw
  = call_build_prompt (utf8 "Ocean view") (rev kw).
Proof.
  split; [reflexivity|].
  apply (C4_field_order_fixed (utf8 "Ocean view")
           [(Era, utf8 "현대"); (Mood, utf8 "따뜻하고 포근한");
            (ArtStyle, DEFAULT_MARK); (Camera, NOT_CHOSEN_MARK);
            (Detail, DEFAULT_MARK); (ColourPalette, DEFAULT_MARK)]
           (rev [(Era, utf8 "현대"); (Mood, utf8 "따뜻하고 포근한");
                 (ArtStyle, DEFAULT_MARK); (Camera, NOT_CHOSEN_MARK);
                 (Detail, DEFAULT_MARK); (ColourPalette, DEFAULT_MARK)])
           (mkStyle [] [] [] [] [] [])).
  apply Permutation_rev.
Defined.

(** ** The composer on arguments that may be [None] *)

Lemma Dyn_append_if_content_str (parts : list str) (l v : str) :
  Dyn._append_if_content (map Dyn.VStr parts) l (Dyn.VStr v)
  = map Dyn.VStr (_append_if_content parts l v).
Proof.
  unfold Dyn._append_if_content, _append_if_content. simpl.
  destruct (truthy v && neqb v DEFAULT_MARK && neqb v NOT_CHOSEN_MARK);
    [|reflexivity].
  now rewrite map_app.
Qed.

Lemma Dyn_strings_str (l : list str) : Dyn.strings (map Dyn.VStr l) = Some l.
Proof. induction l as [|x l IH]; simpl; [reflexivity | now rewrite IH]. Qed.

Lemma Dyn_join_str (sep : str) (l : list str) :
  Dyn.join sep (map Dyn.VStr l) = ret (Dyn.VStr (join sep l)).
Proof. unfold Dyn.join. now rewrite Dyn_strings_str. Qed.

Example Dyn_passage_None_raises :
  result (Dyn._build_prompt Dyn.VNone (Dyn.VStr DEFAULT_MARK)
            (Dyn.VStr DEFAULT_MARK) (Dyn.VStr DEFAULT_MARK)
            (Dyn.VStr DEFAULT_MARK) (Dyn.VStr NOT_CHOSEN_MARK)
            (Dyn.VStr NOT_CHOSEN_MARK))
  = Raised (Exn AttributeError
              (utf8 "'NoneType' object has no attribute 'strip'")).
Proof. reflexivity. Qed.

(** C7: on any seven strings, enumerated or not, [_build_prompt] raises no
    exception, causes no event, and returns a string: the one the typed
    function computes. *)
Theorem C7_total_pure_on_strings (p a m c d k e : str) :
  Dyn._build_prompt (Dyn.VStr p) (Dyn.VStr a) (Dyn.VStr m) (Dyn.VStr c)
    (Dyn.VStr d) (Dyn.VStr k) (Dyn.VStr e)
  = ([], Done (Dyn.VStr (_build_prompt p a m c d k e))).
Proof.
  unfold Dyn._build_prompt, _build_prompt, build_parts, Dyn.strip.
  unfold bind, ret at 1.
  replace (if Dyn.truthy (Dyn.VStr (strip p))
           then [] ++ [Dyn.VStr (strip p)] else [])
    with (map Dyn.VStr (if truthy (strip p) then [] ++ [strip p] else []))
    by (simpl; destruct (truthy (strip p)); reflexivity).
  rewrite !Dyn_append_if_content_str, Dyn_join_str. reflexivity.
Qed.

(** ** The submission path of [main] *)

Lemma bind_ret_l {A B : Type} (a : A) (k : A -> M B) : bind (ret a) k = k a.
Proof. unfold bind, ret. destruct (k a); reflexivity. Qed.

(** The lookup in [sample_passages] never raises: the select box returns
    "직접 입력" or one of the keys of the dict. *)
Lemma default_passage_lookup (e : env) :
  (if neqb (selected_sample e) (utf8 "직접 입력")
   then dict_get sample_passages (selected_sample e)
   else ret [])
  = ret (default_passage e).
Proof.
  unfold default_passage, selected_sample, selectbox.
  destruct (choice e (utf8 "샘플 장면 불러오기")) as [|[|[|[|[|n]]]]];
    vm_compute; reflexivity.
Qed.

Lemma main_blank_passage (e : env) :
  strip (passage_read e) = [] ->
  existsb is_request (trace (main e)) = false /\
  (key_file_exists e = true -> vertexai_init e = None -> button e = true ->
   main e
   = (PRELUDE ++ [StWarning (utf8 "책 속 장면을 입력해주세요.")], Halted)).
Proof.
  intros Hblank. unfold main. cbv zeta. fold (selected_sample e).
  rewrite (default_passage_lookup e).
  rewrite bind_ret_l. fold (passage_read e). rewrite Hblank.
  unfold _init_vertex_ai.
  destruct (key_file_exists e), (vertexai_init e) as [exc|], (button e);
    (split; [vm_compute; reflexivity
            | intros; try discriminate; vm_compute; reflexivity]).
Qed.

Example main_sends_request :
  main (submit_run (utf8 " Ocean view "))
  = (PRELUDE
       ++ [StSpinner (utf8 "Imagen 모델이 상상을 그리는 중입니다...");
           FromPretrained MODEL_NAME;
           GenerateImages MODEL_NAME (utf8 "Ocean view");
           StImage [137; 80; 78; 71]%N (utf8 "Result #1");
           StSuccess (utf8 "완료!")],
     Done tt).
Proof. vm_compute. reflexivity. Qed.

(** C8: when the submit button is pressed and the passage is blank, the
    run issues no request to the generation model (neither the model is
    loaded nor [generate_images] called); having passed initialisation, it
    shows the warning as its last act and stops there. *)
Theorem C8_blank_passage_sends_no_request (e : env) :
  button e = true ->
  blank (passage_read e) = true ->
  (forall m q, ~ In (GenerateImages m q) (trace (main e))) /\
  (forall m, ~ In (FromPretrained m) (trace (main e))) /\
  (key_file_exists e = true -> vertexai_init e = None ->
   trace (main e)
   = PRELUDE ++ [StWarning (utf8 "책 속 장면을 입력해주세요.")] /\
   result (main e) = Halted).
Proof.
  intros Hbutton Hblank.
  destruct (main_blank_passage e (strip_blank _ Hblank)) as [Hnone Hrun].
  assert (Hno : forall ev, In ev (trace (main e)) -> is_request ev = false).
  { intros ev Hin. destruct (is_request ev) eqn:E; [|reflexivity].
    rewrite <- Hnone. symmetry. apply existsb_exists. now exists ev. }
  split; [intros m q Hin; apply Hno in Hin; discriminate|].
  split; [intros m Hin; apply Hno in Hin; discriminate|].
  intros Hkey Hinit. now rewrite (Hrun Hkey Hinit Hbutton).
Qed.

Lemma C8_witness :
  button (submit_run (utf8 "  ")) = true /\
  blank (passage_read (submit_run (utf8 "  "))) = true /\
  trace (main (submit_run (utf8 "  ")))
  = PRELUDE ++ [StWarning (utf8 "책 속 장면을 입력해주세요.")] /\
  result (main (submit_run (utf8 "  "))) = Halted.
Proof.
  split; [reflexivity|]. split; [reflexivity|].
  apply (C8_blank_passage_sends_no_request (submit_run (utf8 "  ")));
    reflexivity.
Defined.

(** ** Trimming *)

Lemma lstrip_nil_blank (p : str) : lstrip p = [] -> blank p = true.
Proof.
  induction p as [|c p IH]; simpl; [reflexivity|].
  destruct (isspace c); [exact IH | discriminate].
Qed.

Lemma rstrip_nil_blank (p : str) : rstrip p = [] -> blank p = true.
Proof.
  induction p as [|c p IH]; simpl; [reflexivity|].
  destruct (rstrip p) as [|r rs]; [|discriminate].
  destruct (isspace c); [intros _; now apply IH | discriminate].
Qed.

Lemma lstrip_head (p : str) (c : N) (t : str) :
  lstrip p = c :: t -> isspace c = false.
Proof.
  induction p as [|x p IH]; simpl; [discriminate|].
  destruct (isspace x) eqn:E; [exact IH|].
  intros [= <- <-]. exact E.
Qed.

Lemma blank_head (c : N) (t : str) : isspace c = false -> blank (c :: t) = false.
Proof. intros H. simpl. now rewrite H. Qed.

Lemma strip_nil_blank (p : str) : strip p = [] -> blank p = true.
Proof.
  unfold strip. intros H. apply rstrip_nil_blank in H.
  destruct (lstrip p) as [|c t] eqn:E; [now apply lstrip_nil_blank|].
  apply lstrip_head in E. now rewrite (blank_head c t E) in H.
Qed.

Lemma strip_nil_iff (p : str) : strip p = [] <-> blank p = true.
Proof. split; [apply strip_nil_blank | apply strip_blank]. Qed.

Lemma rstrip_idem (p : str) : rstrip (rstrip p) = rstrip p.
Proof.
  induction p as [|c p IH]; simpl; [reflexivity|].
  destruct (rstrip p) as [|r rs] eqn:E.
  - destruct (isspace c) eqn:Ec; simpl; [reflexivity | now rewrite Ec].
  - change (rstrip (c :: r :: rs)) with
      (match rstrip (r :: rs) with
       | [] => if isspace c then [] else [c]
       | x :: xs => c :: x :: xs
       end).
    now rewrite IH.
Qed.

Lemma rstrip_head (c : N) (t : str) :
  isspace c = false -> exists t', rstrip (c :: t) = c :: t'.
Proof.
  intros H. simpl. destruct (rstrip t) as [|r rs].
  - rewrite H. now exists [].
  - now exists (r :: rs).
Qed.

Lemma lstrip_strip (p : str) : lstrip (strip p) = strip p.
Proof.
  unfold strip. destruct (lstrip p) as [|c t] eqn:E; [reflexivity|].
  apply lstrip_head in E. destruct (rstrip_head c t E) as [t' ->].
  simpl. now rewrite E.
Qed.

Lemma strip_idem (p : str) : strip (strip p) = strip p.
Proof.
  unfold strip at 1. rewrite lstrip_strip. unfold strip. apply rstrip_idem.
Qed.

(** ** Joining *)

Lemma join_cons_not_nil (sep x : str) (rest : list str) :
  x <> [] -> join sep (x :: rest) <> [].
Proof.
  intros Hx. simpl. destruct rest; [exact Hx|].
  destruct x; [now elim Hx | discriminate].
Qed.

Lemma join_starts_with (sep x : str) (rest : list str) :
  exists tail, join sep (x :: rest) = x ++ tail.
Proof.
  simpl. destruct rest as [|y rest].
  - exists []. now rewrite app_nil_r.
  - now exists (sep ++ join sep (y :: rest)).
Qed.

Lemma label_not_nil (f : field) : label f <> [].
Proof. destruct f; discriminate. Qed.

Lemma segment_not_nil (s : StyleOptions) (f : field) : segment s f <> [].
Proof.
  unfold segment. pose proof (label_not_nil f) as H.
  destruct (label f); [now elim H | discriminate].
Qed.

(** ** [main], case by case *)

Lemma main_run (e : env) : main e = main_cases e.
Proof.
  unfold main. cbv zeta. fold (selected_sample e).
  rewrite (default_passage_lookup e).
  rewrite bind_ret_l. fold (passage_read e).
  unfold main_cases, generation_events, final_prompt, compose, options_read.
  cbn [art_style mood color_palette detail_level camera_focus era].
  generalize (_build_prompt (passage_read e)
                (selectbox e (utf8 "아트 스타일") ART_STYLES)
                (selectbox e (utf8 "분위기") MOODS)
                (selectbox e (utf8 "색상") COLOUR_PALETTES)
                (selectbox e (utf8 "디테일") DETAIL_LEVELS)
                (selectbox e (utf8 "카메라 연출") CAMERA_FOCUSES)
                (selectbox e (utf8 "시대/배경") ERAS)).
  intros q. unfold _init_vertex_ai.
  destruct (key_file_exists e); [|vm_compute; reflexivity].
  destruct (vertexai_init e) as [exc|]; [vm_compute; reflexivity|].
  destruct (button e); [|vm_compute; reflexivity].
  destruct (truthy (strip (passage_read e))); [|vm_compute; reflexivity].
  destruct (from_pretrained e MODEL_NAME) as [exc|]; [vm_compute; reflexivity|].
  destruct (generate_images e MODEL_NAME q) as [[|img imgs]|exc];
    [vm_compute; reflexivity | | vm_compute; reflexivity].
  cbn [first_image]. rewrite bind_ret_l. cbv beta.
  destruct (st_image e img) as [exc|]; vm_compute; reflexivity.
Qed.

Lemma truthy_strip_blank (p : str) : truthy (strip p) = negb (blank p).
Proof.
  destruct (blank p) eqn:E.
  - now rewrite (strip_blank p E).
  - destruct (strip p) eqn:Es; [|reflexivity].
    apply strip_nil_blank in Es. congruence.
Qed.

Lemma PRELUDE_eq :
  PRELUDE
  = PAGE ++ [SetEnviron (utf8 "GOOGLE_APPLICATION_CREDENTIALS") KEY_PATH;
             VertexInit PROJECT_ID LOCATION;
             StHeader (utf8 "🎨 스타일 옵션")].
Proof. reflexivity. Qed.

Lemma In_filter_nil {A : Type} (f : A -> bool) (l : list A) (x : A) :
  filter f l = [] -> In x l -> f x = false.
Proof.
  intros Hnil Hin. destruct (f x) eqn:E; [|reflexivity].
  assert (H : In x (filter f l)) by (apply filter_In; now split).
  rewrite Hnil in H. destruct H.
Qed.

(** ** Initialisation *)

(** X1: [_init_vertex_ai] returns exactly when the key file is present and
    [vertexai.init] does not raise; otherwise it stops the run, having shown
    exactly one error.  It never lets an exception escape, and with the key
    file missing it touches neither the environment nor the SDK. *)
Theorem init_returns_iff_configured (e : env) :
  (result (_init_vertex_ai e) = Done tt
   <-> key_file_exists e = true /\ vertexai_init e = None) /\
  (result (_init_vertex_ai e) = Halted
   <-> key_file_exists e = false \/ vertexai_init e <> None) /\
  (forall exc, result (_init_vertex_ai e) <> Raised exc) /\
  (result (_init_vertex_ai e) = Halted ->
   List.length (filter is_error (trace (_init_vertex_ai e))) = 1) /\
  (key_file_exists e = false ->
   filter is_sdk_call (trace (_init_vertex_ai e)) = []).
Proof.
  unfold _init_vertex_ai.
  destruct (key_file_exists e), (vertexai_init e) as [exc|]; cbn;
    repeat split; intros; try discriminate; try reflexivity;
    try tauto; intuition discriminate.
Qed.

(** X2: when the key file is missing, [main] shows the title and the error
    naming the key file and stops there: no side bar, no change of the
    environment, no call to the SDK, whatever the widgets hold. *)
Theorem main_missing_key_file (e : env) :
  key_file_exists e = false ->
  main e = (PAGE ++ [StError (utf8 "'gcp-key.json' 키 파일이 없습니다.")], Halted)
  /\ filter is_sdk_call (trace (main e)) = [].
Proof.
  intros H. rewrite main_run. unfold main_cases. rewrite H.
  split; reflexivity.
Qed.

Lemma main_missing_key_file_witness :
  result (main (mkEnv false None (fun _ => 2) (fun _ => utf8 "Ocean view") true
                 (fun _ => None) (fun _ _ => inl [[137; 80]%N]) (fun _ => None)))
  = Halted.
Proof.
  apply (f_equal snd
           (proj1 (main_missing_key_file
                     (mkEnv false None (fun _ => 2) (fun _ => utf8 "Ocean view")
                        true (fun _ => None) (fun _ _ => inl [[137; 80]%N]) (fun _ => None))
                     eq_refl))).
Defined.

(** X3: when [vertexai.init] raises, [main] has set the credentials
    variable and called the SDK once, shows the exception's text after
    "Vertex AI 초기화 실패: " and stops: no side bar and no request. *)
Theorem main_sdk_init_failure (e : env) (exc : exn) :
  key_file_exists e = true ->
  vertexai_init e = Some exc ->
  main e
  = (PAGE ++ [SetEnviron (utf8 "GOOGLE_APPLICATION_CREDENTIALS") KEY_PATH;
              VertexInit PROJECT_ID LOCATION;
              StError (utf8 "Vertex AI 초기화 실패: " ++ message exc)],
     Halted).
Proof.
  intros Hk Hi. rewrite main_run. unfold main_cases. now rewrite Hk, Hi.
Qed.

Lemma main_sdk_init_failure_witness :
  let exc := Exn ServiceError (utf8 "permission denied") in
  last (trace (main (mkEnv true (Some exc) (fun _ => 0) (fun _ => [])
                       true (fun _ => None) (fun _ _ => inl []) (fun _ => None))))
       (StTitle [])
  = StError (utf8 "Vertex AI 초기화 실패: permission denied").
Proof.
  intros exc.
  rewrite (main_sdk_init_failure
             (mkEnv true (Some exc) (fun _ => 0) (fun _ => [])
                true (fun _ => None) (fun _ _ => inl []) (fun _ => None))
             exc eq_refl eq_refl).
  vm_compute. reflexivity.
Defined.

(** ** Runs of [main] *)

(** X4: no exception escapes [main]: whatever the widgets hold, whatever the
    SDK answers and whichever [Exception] the SDK or [st.image] raises, the
    run ends normally or by [st.stop()]. *)
Theorem main_never_raises (e : env) :
  (result (main e) = Done tt \/ result (main e) = Halted) /\
  forall exc, result (main e) <> Raised exc.
Proof.
  rewrite main_run. unfold main_cases.
  destruct (key_file_exists e), (vertexai_init e), (button e),
    (truthy (strip (passage_read e))); cbn; split;
    solve [now left | now right | intros; discriminate].
Qed.

(** X5: while the button is not pressed, an initialised run draws the page
    and the side bar and ends: no warning, no call to the model, whatever
    the passage and the options are. *)
Theorem main_without_submission (e : env) :
  key_file_exists e = true ->
  vertexai_init e = None ->
  button e = false ->
  main e = (PRELUDE, Done tt).
Proof.
  intros Hk Hi Hb. rewrite main_run. unfold main_cases.
  now rewrite Hk, Hi, Hb.
Qed.

Lemma main_without_submission_witness :
  main (mkEnv true None (fun _ => 1) (fun d => d) false (fun _ => None)
          (fun _ _ => inl [[137; 80]%N]) (fun _ => None))
  = (PRELUDE, Done tt).
Proof.
  apply (main_without_submission
           (mkEnv true None (fun _ => 1) (fun d => d) false (fun _ => None)
              (fun _ _ => inl [[137; 80]%N]) (fun _ => None)));
    reflexivity.
Defined.

(** ** More on the composer *)

Lemma compose_all_sentinel (p : str) (s : StyleOptions) :
  all_sentinel s = true -> compose p s = strip p.
Proof.
  intros Hall. rewrite compose_shape. unfold field_segments.
  rewrite emitted_nil.
  - simpl. rewrite app_nil_r. apply join_passage_part.
  - intros f. apply has_content_sentinel, all_sentinel_get, Hall.
Qed.

Lemma passage_part_not_blank (p : str) :
  blank p = false -> passage_part p = [strip p] /\ strip p <> [].
Proof.
  intros H. unfold passage_part.
  pose proof (truthy_strip_blank p) as Ht. rewrite H in Ht. simpl in Ht.
  rewrite Ht. split; [reflexivity|]. now apply truthy_true.
Qed.

(** X6: a passage that is not blank is the first part of the prompt,
    trimmed: the prompt starts with the trimmed passage and the option
    segments follow it. *)
Theorem passage_segment_first (p : str) (s : StyleOptions) :
  blank p = false ->
  parts_of p s = strip p :: field_segments s /\
  exists tail, compose p s = strip p ++ tail.
Proof.
  intros H. destruct (passage_part_not_blank p H) as [Hpart _].
  split.
  - now rewrite parts_of_shape, Hpart.
  - rewrite compose_shape, Hpart. apply join_starts_with.
Qed.

Lemma passage_segment_first_witness :
  let s := mkStyle DEFAULT_MARK DEFAULT_MARK (utf8 "모노톤") DEFAULT_MARK
             (utf8 "드론 뷰") NOT_CHOSEN_MARK in
  parts_of (utf8 "  Ocean view ") s
  = [utf8 "Ocean view"; utf8 "Colour palette: 모노톤"; utf8 "Camera: 드론 뷰"].
Proof.
  intros s.
  rewrite (proj1 (passage_segment_first (utf8 "  Ocean view ") s eq_refl)).
  reflexivity.
Defined.

Lemma lstrip_app_blank (l x : str) : blank l = true -> lstrip (l ++ x) = lstrip x.
Proof.
  induction l as [|c l IH]; simpl; [reflexivity|].
  rewrite andb_true_iff. intros [-> H]. now apply IH.
Qed.

Lemma rstrip_blank (r : str) : blank r = true -> rstrip r = [].
Proof.
  induction r as [|c r IH]; simpl; [reflexivity|].
  rewrite andb_true_iff. intros [-> H]. now rewrite IH.
Qed.

Lemma rstrip_app_blank (x r : str) : blank r = true -> rstrip (x ++ r) = rstrip x.
Proof.
  intros H. induction x as [|c x IH]; simpl.
  - now apply rstrip_blank.
  - now rewrite IH.
Qed.

Lemma lstrip_app (p r : str) :
  lstrip (p ++ r) = if blank p then lstrip r else lstrip p ++ r.
Proof.
  induction p as [|c p IH]; simpl; [reflexivity|].
  destruct (isspace c); [exact IH | reflexivity].
Qed.

Lemma strip_padded (l p r : str) :
  blank l = true -> blank r = true -> strip (l ++ p ++ r) = strip p.
Proof.
  intros Hl Hr. unfold strip. rewrite (lstrip_app_blank l _ Hl), lstrip_app.
  destruct (blank p) eqn:Hp.
  - rewrite (lstrip_blank r Hr), (lstrip_blank p Hp). reflexivity.
  - now apply rstrip_app_blank.
Qed.

(** X7: white space around the passage does not reach the prompt: padding
    the passage with white space on either side, or trimming it beforehand,
    gives the same prompt. *)
Theorem compose_ignores_outer_whitespace (l p r : str) (s : StyleOptions) :
  blank l = true -> blank r = true ->
  compose (l ++ p ++ r) s = compose p s /\ compose (strip p) s = compose p s.
Proof.
  intros Hl Hr. unfold compose, _build_prompt, build_parts.
  now rewrite (strip_padded l p r Hl Hr), strip_idem.
Qed.

Lemma compose_ignores_outer_whitespace_witness :
  let s := mkStyle (utf8 "유화") DEFAULT_MARK DEFAULT_MARK DEFAULT_MARK
             NOT_CHOSEN_MARK NOT_CHOSEN_MARK in
  compose ([9; 32]%N ++ utf8 "A dark  castle." ++ [160; 10; 12288]%N) s
  = compose (utf8 "A dark  castle.") s.
Proof.
  intros s.
  apply (compose_ignores_outer_whitespace [9; 32]%N (utf8 "A dark  castle.")
           [160; 10; 12288]%N s);
    reflexivity.
Defined.

Lemma compose_nil_iff (p : str) (s : StyleOptions) :
  compose p s = []
  <-> blank p = true /\ forall f, has_content (get f s) = false.
Proof.
  rewrite compose_shape. split.
  - intros H. destruct (blank p) eqn:Hp.
    + split; [reflexivity|]. rewrite (passage_part_blank p Hp) in H.
      simpl in H. intros f. destruct (has_content (get f s)) eqn:Hf;
        [|reflexivity].
      apply emitted_In in Hf. unfold field_segments in H.
      destruct (emitted s) as [|g rest]; [destruct Hf|].
      simpl map in H. exfalso.
      exact (join_cons_not_nil DELIMITER _ _ (segment_not_nil s g) H).
    + destruct (passage_part_not_blank p Hp) as [Hpart Hne].
      rewrite Hpart in H. exfalso.
      exact (join_cons_not_nil DELIMITER _ _ Hne H).
  - intros [Hp Hf]. rewrite (passage_part_blank p Hp).
    unfold field_segments. now rewrite (emitted_nil s Hf).
Qed.

(** X8: the prompt is the empty string exactly when the passage is blank
    and no option adds a segment. *)
Theorem compose_empty_iff (p : str) (s : StyleOptions) :
  compose p s = []
  <-> blank p = true /\ forall f, has_content (get f s) = false.
Proof. exact (compose_nil_iff p s). Qed.

(** ** The option lists *)

Lemma nth_hd_In {A : Type} (n : nat) (l : list A) (d : A) :
  l <> [] -> In (nth n l (hd d l)) l.
Proof.
  intros Hl. destruct (Nat.lt_ge_cases n (List.length l)) as [Hlt|Hge].
  - now apply nth_In.
  - rewrite nth_overflow by assumption.
    destruct l; [now elim Hl | now left].
Qed.

(** X9: in every option list of the side bar the first entry, and no
    other, is a "no selection" entry: it is a sentinel spelling and adds no
    segment, while each other entry adds one. *)
Theorem catalog_first_entry_only_is_skipped (f : field) (v : str) :
  In v (catalog f) ->
  is_sentinel (hd [] (catalog f)) = true /\
  (has_content v = false <-> v = hd [] (catalog f)).
Proof.
  intros Hin. split; [destruct f; reflexivity|].
  destruct f; vm_compute in Hin;
    repeat (destruct Hin as [Hin|Hin];
            [subst v; vm_compute; split; intros H;
             first [reflexivity | discriminate H] |]);
    destruct Hin.
Qed.

Lemma catalog_first_entry_only_is_skipped_witness :
  has_content (utf8 "사이버펑크") = false <-> utf8 "사이버펑크" = hd [] (catalog Era).
Proof.
  apply (catalog_first_entry_only_is_skipped Era (utf8 "사이버펑크")).
  vm_compute. tauto.
Defined.

(** X10: whatever the user picks, each of the six values [main] passes to
    [_build_prompt] is an entry of the option list of its field. *)
Theorem options_read_in_catalog (e : env) (f : field) :
  In (get f (options_read e)) (catalog f).
Proof.
  destruct f; unfold options_read, selectbox, get, catalog;
    cbn [art_style mood color_palette detail_level camera_focus era];
    apply nth_hd_In; discriminate.
Qed.

(** ** Requests to the generation model *)

Lemma generation_events_generate (e : env) (m q : str) :
  In (GenerateImages m q) (generation_events e) ->
  m = MODEL_NAME /\ q = final_prompt e /\ from_pretrained e MODEL_NAME = None.
Proof.
  unfold generation_events.
  destruct (from_pretrained e MODEL_NAME) as [exc|].
  - cbn [In]. intros [H|[H|[]]]; discriminate H.
  - destruct (generate_images e MODEL_NAME (final_prompt e)) as [[|img imgs]|exc];
      [|destruct (st_image e img)|];
      cbn [In];
      (intros [H|[H|H]];
       [discriminate H | injection H as <- <-; auto
       | exfalso; repeat (destruct H as [H|H]; [discriminate H|]); exact H]).
Qed.

Lemma main_submitted (e : env) :
  key_file_exists e = true -> vertexai_init e = None -> button e = true ->
  blank (passage_read e) = false ->
  main e
  = (PRELUDE
       ++ StSpinner (utf8 "Imagen 모델이 상상을 그리는 중입니다...")
       :: generation_events e,
     Done tt).
Proof.
  intros Hk Hi Hb Hp. rewrite main_run. unfold main_cases.
  now rewrite Hk, Hi, Hb, truthy_strip_blank, Hp.
Qed.

(** X11: [generate_images] is called only in a run that passed
    initialisation, with the button pressed, a passage that is not blank and
    the model loaded; it is called on the model [MODEL_NAME] with the
    composed prompt, unmodified, and that prompt is never empty. *)
Theorem request_only_for_submitted_passage (e : env) (m q : str) :
  In (GenerateImages m q) (trace (main e)) ->
  m = MODEL_NAME /\ q = final_prompt e /\ q <> [] /\
  key_file_exists e = true /\ vertexai_init e = None /\ button e = true /\
  blank (passage_read e) = false /\ from_pretrained e MODEL_NAME = None.
Proof.
  rewrite main_run. unfold main_cases.
  destruct (key_file_exists e);
    [|intros H; apply (In_filter_nil is_generate) in H; [discriminate H | reflexivity]].
  destruct (vertexai_init e) as [exc|];
    [intros H; apply (In_filter_nil is_generate) in H; [discriminate H | reflexivity]|].
  destruct (button e);
    [|intros H; apply (In_filter_nil is_generate) in H; [discriminate H | reflexivity]].
  rewrite truthy_strip_blank.
  destruct (blank (passage_read e)) eqn:Hp;
    [intros H; apply (In_filter_nil is_generate) in H; [discriminate H | reflexivity]|].
  cbn [negb trace fst]. intros H. apply in_app_or in H as [H|H];
    [apply (In_filter_nil is_generate) in H; [discriminate H | reflexivity]|].
  destruct H as [H|H]; [discriminate H|].
  apply generation_events_generate in H as (-> & -> & Hfp).
  repeat split; try assumption.
  intros Hq. apply compose_nil_iff in Hq as [Hq _]. congruence.
Qed.

Lemma request_only_for_submitted_passage_witness :
  let e := submit_run (utf8 " Ocean view ") in
  In (GenerateImages MODEL_NAME (utf8 "Ocean view")) (trace (main e)) /\
  utf8 "Ocean view" = final_prompt e /\ blank (passage_read e) = false.
Proof.
  intros e.
  assert (H : In (GenerateImages MODEL_NAME (utf8 "Ocean view")) (trace (main e)))
    by (vm_compute; tauto).
  split; [exact H|].
  destruct (request_only_for_submitted_passage e MODEL_NAME (utf8 "Ocean view") H)
    as (_ & Hq & _ & _ & _ & _ & Hb & _).
  split; assumption.
Defined.

(** X12: in a submitted run with a passage that is not blank, when the
    model loads and answers with at least one image, [main] hands the first
    image of the response, and only that one, to [st.image]: when
    [st.image] accepts it, the image and then the success note are shown;
    when [st.image] raises, the exception is caught and its text shown
    after "오류: ", with no image and no success note. *)
Theorem main_shows_first_image (e : env) (img : list N) (more : list (list N)) :
  key_file_exists e = true -> vertexai_init e = None -> button e = true ->
  blank (passage_read e) = false ->
  from_pretrained e MODEL_NAME = None ->
  generate_images e MODEL_NAME (final_prompt e) = inl (img :: more) ->
  main e
  = (PRELUDE
       ++ [StSpinner (utf8 "Imagen 모델이 상상을 그리는 중입니다...");
           FromPretrained MODEL_NAME;
           GenerateImages MODEL_NAME (final_prompt e)]
       ++ match st_image e img with
          | None => [StImage img (utf8 "Result #1"); StSuccess (utf8 "완료!")]
          | Some exc => [StError (utf8 "오류: " ++ message exc)]
          end,
     Done tt).
Proof.
  intros Hk Hi Hb Hp Hfp Hg. rewrite (main_submitted e Hk Hi Hb Hp).
  unfold generation_events. rewrite Hfp, Hg.
  destruct (st_image e img); reflexivity.
Qed.

Lemma main_shows_first_image_witness :
  let png := [137; 80; 78; 71; 13; 10; 26; 10]%N in
  let junk := [1; 2]%N in
  let exc := Exn ServiceError (utf8 "cannot identify image file") in
  let shown (first : list N) :=
    trace (main (mkEnv true None (fun _ => 0) (fun _ => utf8 "Ocean view") true
                   (fun _ => None) (fun _ _ => inl [first; junk])
                   (fun b => if list_eq_dec N.eq_dec b junk then Some exc else None))) in
  In (StImage png (utf8 "Result #1")) (shown png) /\
  In (StSuccess (utf8 "완료!")) (shown png) /\
  ~ In (StImage junk (utf8 "Result #1")) (shown png) /\
  last (shown junk) (StTitle []) = StError (utf8 "오류: cannot identify image file").
Proof.
  intros png junk exc shown. unfold shown.
  rewrite (main_shows_first_image
             (mkEnv true None (fun _ => 0) (fun _ => utf8 "Ocean view") true
                (fun _ => None) (fun _ _ => inl [png; junk])
                (fun b => if list_eq_dec N.eq_dec b junk then Some exc else None))
             png [junk] eq_refl eq_refl eq_refl eq_refl eq_refl eq_refl).
  rewrite (main_shows_first_image
             (mkEnv true None (fun _ => 0) (fun _ => utf8 "Ocean view") true
                (fun _ => None) (fun _ _ => inl [junk; junk])
                (fun b => if list_eq_dec N.eq_dec b junk then Some exc else None))
             junk [junk] eq_refl eq_refl eq_refl eq_refl eq_refl eq_refl).
  vm_compute. repeat split; try tauto. intuition discriminate.
Defined.

(** X13: when [generate_images] raises, the exception is caught: [main]
    shows its text after "오류: ", shows no image and no success note, and
    the run ends normally. *)
Theorem main_generation_failure (e : env) (exc : exn) :
  key_file_exists e = true -> vertexai_init e = None -> button e = true ->
  blank (passage_read e) = false ->
  from_pretrained e MODEL_NAME = None ->
  generate_images e MODEL_NAME (final_prompt e) = inr exc ->
  main e
  = (PRELUDE
       ++ [StSpinner (utf8 "Imagen 모델이 상상을 그리는 중입니다...");
           FromPretrained MODEL_NAME;
           GenerateImages MODEL_NAME (final_prompt e);
           StError (utf8 "오류: " ++ message exc)],
     Done tt).
Proof.
  intros Hk Hi Hb Hp Hfp Hg. rewrite (main_submitted e Hk Hi Hb Hp).
  unfold generation_events. now rewrite Hfp, Hg.
Qed.

Lemma main_generation_failure_witness :
  let exc := Exn ServiceError (utf8 "quota exceeded") in
  let e := mkEnv true None (fun _ => 0) (fun _ => utf8 "Ocean view") true
             (fun _ => None) (fun _ _ => inr exc) (fun _ => None) in
  last (trace (main e)) (StTitle []) = StError (utf8 "오류: quota exceeded") /\
  result (main e) = Done tt.
Proof.
  intros exc e.
  rewrite (main_generation_failure e exc
             eq_refl eq_refl eq_refl eq_refl eq_refl eq_refl).
  vm_compute. split; reflexivity.
Defined.

(** X14: when loading the model raises, [generate_images] is not called:
    [main] shows the exception's text after "오류: " and the run ends
    normally. *)
Theorem main_model_load_failure (e : env) (exc : exn) :
  key_file_exists e = true -> vertexai_init e = None -> button e = true ->
  blank (passage_read e) = false ->
  from_pretrained e MODEL_NAME = Some exc ->
  main e
  = (PRELUDE
       ++ [StSpinner (utf8 "Imagen 모델이 상상을 그리는 중입니다...");
           FromPretrained MODEL_NAME;
           StError (utf8 "오류: " ++ message exc)],
     Done tt).
Proof.
  intros Hk Hi Hb Hp Hfp. rewrite (main_submitted e Hk Hi Hb Hp).
  unfold generation_events. now rewrite Hfp.
Qed.

Lemma main_model_load_failure_witness :
  let exc := Exn ServiceError (utf8 "model not found") in
  let e := mkEnv true None (fun _ => 0) (fun _ => utf8 "Ocean view") true
             (fun _ => Some exc) (fun _ _ => inl [[1; 2]%N]) (fun _ => None) in
  filter is_generate (trace (main e)) = [] /\ result (main e) = Done tt.
Proof.
  intros exc e.
  rewrite (main_model_load_failure e exc
             eq_refl eq_refl eq_refl eq_refl eq_refl).
  vm_compute. split; reflexivity.
Defined.

(** X15: a response with no image makes [response[0]] raise; the
    [IndexError] is caught like a failure of the service: [main] shows
    "오류: list index out of range", no image and no success note. *)
Theorem main_empty_response (e : env) :
  key_file_exists e = true -> vertexai_init e = None -> button e = true ->
  blank (passage_read e) = false ->
  from_pretrained e MODEL_NAME = None ->
  generate_images e MODEL_NAME (final_prompt e) = inl [] ->
  main e
  = (PRELUDE
       ++ [StSpinner (utf8 "Imagen 모델이 상상을 그리는 중입니다...");
           FromPretrained MODEL_NAME;
           GenerateImages MODEL_NAME (final_prompt e);
           StError (utf8 "오류: list index out of range")],
     Done tt).
Proof.
  intros Hk Hi Hb Hp Hfp Hg. rewrite (main_submitted e Hk Hi Hb Hp).
  unfold generation_events. now rewrite Hfp, Hg.
Qed.

Lemma main_empty_response_witness :
  let e := mkEnv true None (fun _ => 0) (fun _ => utf8 "Ocean view") true
             (fun _ => None) (fun _ _ => inl []) (fun _ => None) in
  last (trace (main e)) (StTitle [])
  = StError (utf8 "오류: list index out of range").
Proof.
  intros e.
  rewrite (main_empty_response e
             eq_refl eq_refl eq_refl eq_refl eq_refl eq_refl).
  vm_compute. reflexivity.
Defined.

Lemma existsb_filter {A : Type} (f : A -> bool) (l : list A) :
  existsb f l = true <-> filter f l <> [].
Proof.
  induction l as [|x l IH]; simpl.
  - split; [discriminate | intros H; now elim H].
  - destruct (f x); simpl; [split; [discriminate | reflexivity] | exact IH].
Qed.

Lemma warnings_of_main (e : env) :
  filter is_warning (trace (main e))
  = if key_file_exists e
       && match vertexai_init e with None => true | Some _ => false end
       && button e && blank (passage_read e)
    then [StWarning (utf8 "책 속 장면을 입력해주세요.")]
    else [].
Proof.
  rewrite main_run. unfold main_cases. rewrite truthy_strip_blank.
  destruct (key_file_exists e); [|reflexivity].
  destruct (vertexai_init e) as [exc|]; [reflexivity|].
  destruct (button e); [|reflexivity].
  destruct (blank (passage_read e)); [reflexivity|].
  cbn [negb trace fst andb]. rewrite filter_app.
  replace (filter is_warning PRELUDE) with (@nil event) by reflexivity.
  cbn [app filter is_warning]. unfold generation_events.
  destruct (from_pretrained e MODEL_NAME);
    [|destruct (generate_images e MODEL_NAME (final_prompt e)) as [[|img imgs]|];
      [|destruct (st_image e img)|]];
    reflexivity.
Qed.

Lemma warning_iff_blank_submission_aux (e : env) :
  (existsb is_warning (trace (main e)) = true
   <-> key_file_exists e = true /\ vertexai_init e = None /\
       button e = true /\ blank (passage_read e) = true) /\
  (forall text, In (StWarning text) (trace (main e)) ->
                text = utf8 "책 속 장면을 입력해주세요.").
Proof.
  split.
  - rewrite existsb_filter, warnings_of_main.
    destruct (key_file_exists e), (vertexai_init e) as [exc|], (button e),
      (blank (passage_read e)); cbn [andb];
      (split; [intros H; try (now elim H); repeat split
              | intros (H1 & H2 & H3 & H4); try discriminate]).
  - intros text Hin.
    assert (H : In (StWarning text) (filter is_warning (trace (main e))))
      by (apply filter_In; now split).
    rewrite warnings_of_main in H.
    destruct (_ && _ && _ && _); [|destruct H].
    destruct H as [H|[]]. now injection H as <-.
Qed.

(** X16: the empty-input warning is shown exactly in the runs that passed
    initialisation with the button pressed and a blank passage; it is the
    one fixed text. *)
Theorem warning_iff_blank_submission (e : env) :
  (existsb is_warning (trace (main e)) = true
   <-> key_file_exists e = true /\ vertexai_init e = None /\
       button e = true /\ blank (passage_read e) = true) /\
  (forall text, In (StWarning text) (trace (main e)) ->
                text = utf8 "책 속 장면을 입력해주세요.").
Proof. exact (warning_iff_blank_submission_aux e). Qed.

(** X17: a run calls [generate_images] at most once and loads the model at
    most once. *)
Theorem at_most_one_request (e : env) :
  List.length (filter is_generate (trace (main e))) <= 1 /\
  List.length (filter is_load (trace (main e))) <= 1.
Proof.
  rewrite main_run. unfold main_cases.
  destruct (key_file_exists e); [|cbn; lia].
  destruct (vertexai_init e); [cbn; lia|].
  destruct (button e); [|cbn; lia].
  destruct (truthy (strip (passage_read e))); [|cbn; lia].
  cbn [negb trace fst]. rewrite !filter_app, !length_app.
  replace (filter is_generate PRELUDE) with (@nil event) by reflexivity.
  replace (filter is_load PRELUDE) with (@nil event) by reflexivity.
  unfold generation_events.
  destruct (from_pretrained e MODEL_NAME);
    [|destruct (generate_images e MODEL_NAME (final_prompt e)) as [[|img imgs]|];
      [|destruct (st_image e img)|]];
    cbn; lia.
Qed.

(** ** What the side bar and the samples give *)

(** X18: when every select box is left on its first entry, the prompt is
    exactly the trimmed content of the text area, which was prefilled with
    the empty string. *)
Theorem default_selection_prompt (e : env) :
  (forall label, choice e label = 0) ->
  default_passage e = [] /\
  final_prompt e = strip (text_area e []).
Proof.
  intros H.
  assert (Hd : default_passage e = []).
  { unfold default_passage, selected_sample, selectbox. rewrite H.
    vm_compute. reflexivity. }
  split; [exact Hd|].
  unfold final_prompt, passage_read. rewrite Hd.
  apply compose_all_sentinel.
  unfold options_read, selectbox. rewrite !H. vm_compute. reflexivity.
Qed.

Lemma default_selection_prompt_witness :
  final_prompt (submit_run (utf8 " Ocean view ")) = utf8 "Ocean view".
Proof.
  rewrite (proj2 (default_selection_prompt (submit_run (utf8 " Ocean view "))
                    (fun _ => eq_refl))).
  vm_compute. reflexivity.
Defined.

(** X19: the lookup [sample_passages[selected_sample]] never raises
    [KeyError]: the first select box returns "직접 입력", for which the
    text area is prefilled with the empty string, or a key of the dict, for
    which it is prefilled with that sample's text. *)
Theorem sample_lookup_never_raises (e : env) :
  (selected_sample e = utf8 "직접 입력" /\ default_passage e = []) \/
  (selected_sample e <> utf8 "직접 입력" /\
   In (selected_sample e, default_passage e) sample_passages /\
   dict_get sample_passages (selected_sample e) = ret (default_passage e)).
Proof.
  unfold default_passage, selected_sample, selectbox.
  destruct (choice e (utf8 "샘플 장면 불러오기")) as [|[|[|[|[|n]]]]];
    vm_compute;
    first [left; split; reflexivity
          | right; split; [discriminate|]; split; [|reflexivity];
            repeat first [left; reflexivity | right]].
Qed.

(** X20: a sample loaded from the side bar and left unedited is never
    blank: submitting it in an initialised run shows no warning and goes on
    to load the model. *)
Theorem unedited_sample_is_submitted (e : env) (i : nat) :
  choice e (utf8 "샘플 장면 불러오기") = S i -> i < 3 ->
  text_area e (default_passage e) = default_passage e ->
  key_file_exists e = true -> vertexai_init e = None -> button e = true ->
  blank (passage_read e) = false /\
  existsb is_warning (trace (main e)) = false /\
  In (FromPretrained MODEL_NAME) (trace (main e)).
Proof.
  intros Hc Hi Ht Hk Hinit Hb.
  assert (Hp : blank (passage_read e) = false).
  { unfold passage_read. rewrite Ht.
    unfold default_passage, selected_sample, selectbox. rewrite Hc.
    destruct i as [|[|[|i]]]; [vm_compute; reflexivity .. | lia]. }
  split; [exact Hp|]. split.
  - destruct (existsb is_warning (trace (main e))) eqn:E; [|reflexivity].
    apply (proj1 (warning_iff_blank_submission_aux e)) in E.
    destruct E as (_ & _ & _ & E). congruence.
  - rewrite (main_submitted e Hk Hinit Hb Hp). cbn [trace fst].
    apply in_or_app. right. right. left. reflexivity.
Qed.

Lemma unedited_sample_is_submitted_witness :
  let e := mkEnv true None (fun _ => 2) (fun d => d) true (fun _ => None)
             (fun _ _ => inl [[137; 80]%N]) (fun _ => None) in
  passage_read e
  = utf8 "거대한 유리창 너머로 푸른 행성이 보이고, 금속 질감의 복도가 이어진다." /\
  In (FromPretrained MODEL_NAME) (trace (main e)).
Proof.
  intros e. split; [vm_compute; reflexivity|].
  apply (unedited_sample_is_submitted e 1); try reflexivity. lia.
Defined.

(** ** Arguments that are [None] *)

Lemma Dyn_append_if_content_none_as_default
  (parts : list str) (lab : str) (v : Dyn.value) :
  Dyn._append_if_content (map Dyn.VStr parts) lab v
  = map Dyn.VStr (_append_if_content parts lab (none_as_default v)).
Proof.
  destruct v as [s|]; [apply Dyn_append_if_content_str | reflexivity].
Qed.

(** X22: on arguments each of which is a string or [None],
    [_build_prompt] raises exactly when the passage is [None], and then the
    [AttributeError] of the missing [strip]; with a string passage it
    returns the prompt composed with every option that is [None] passed
    over like a sentinel. *)
Theorem Dyn_none_arguments (passage a m c d k e : Dyn.value) :
  Dyn._build_prompt passage a m c d k e
  = match passage with
    | Dyn.VStr p =>
        ([], Done (Dyn.VStr
                     (_build_prompt p (none_as_default a) (none_as_default m)
                        (none_as_default c) (none_as_default d)
                        (none_as_default k) (none_as_default e))))
    | Dyn.VNone =>
        ([], Raised (Exn AttributeError
                       (utf8 "'NoneType' object has no attribute 'strip'")))
    end.
Proof.
  destruct passage as [p|]; [|reflexivity].
  unfold Dyn._build_prompt, _build_prompt, build_parts, Dyn.strip.
  rewrite bind_ret_l.
  replace (if Dyn.truthy (Dyn.VStr (strip p))
           then [] ++ [Dyn.VStr (strip p)] else [])
    with (map Dyn.VStr (if truthy (strip p) then [] ++ [strip p] else []))
    by (simpl; destruct (truthy (strip p)); reflexivity).
  now rewrite !Dyn_append_if_content_none_as_default, Dyn_join_str.
Qed.
